(** * Task-management dashboard: authentication core

    A shallow embedding of the authentication service, the form
    components and the entity interfaces of the kanban front-end,
    together with the properties its specification states about them.

    Conventions of the embedding:
    - a JavaScript string is a [string]; its characters stand for the
      code units that [length] and [includes] work on;
    - [null] and [undefined] are [None];
    - an object used as a dictionary (a form group's controls, a
      validation-error object) is a [gmap] over its keys; the error
      table of [formatAuthError], which is walked in insertion order, is
      an association list;
    - the backend SDK is an oracle ([Backend]) that settles every request
      from the log of the requests sent so far;
    - a method of a service is first given as one action, the run of
      that method alone with its replies arriving at once; [EventLoop]
      then cuts the methods at their [await]s and lets calls, session
      changes and replies come in any order. *)

From stdpp Require Import base option list strings gmap.

(** ** JavaScript strings *)

Module Js.

(** [String.prototype.includes]: does [key] occur in [s] at some
    position? *)
Fixpoint includes (s key : string) : bool :=
  String.prefix key s ||
  match s with
  | EmptyString => false
  | String _ rest => includes rest key
  end.

(** What [includes] decides: [key] is a contiguous part of [s]. *)
Definition contains (s key : string) : Prop :=
  exists before after, s = before +:+ key +:+ after.

(** [a || b] on a value of type [string | null | undefined]: the empty
    string is falsy, like [null]. *)
Definition or_else (a : option string) (b : string) : string :=
  match a with
  | Some EmptyString | None => b
  | Some s => s
  end.

End Js.

(** ** Models: user.interface.ts *)

Inductive UserRole : Type := ADMIN | MEMBER.

Module Profile.
Record t : Type := mk {
  id : string;
  email : string;
  full_name : option string;
  avatar_url : option string;
  role : UserRole;
  created_at : string;
  updated_at : string
}.
End Profile.

Module SignUpRequest.
Record t : Type := mk {
  email : string;
  password : string;
  full_name : string;
  role : option UserRole
}.
End SignUpRequest.

Module SignInRequest.
Record t : Type := mk {
  email : string;
  password : string
}.
End SignInRequest.

Module AuthResponse.
Record t : Type := mk {
  success : bool;
  error : option string;
  profile : option Profile.t
}.
End AuthResponse.

(** ** AuthService.formatAuthError *)

(** The table [errorMap]; [Object.entries] lists it in this order. *)
Definition errorMap : list (string * string) :=
  [ ("Invalid login credentials",
     "Invalid email or password. Please try again.");
    ("Email not confirmed",
     "Please verify your email address before signing in.");
    ("User already registered",
     "An account with this email already exists.");
    ("Password should be at least 6 characters",
     "Password must be at least 6 characters long.");
    ("Unable to validate email address: invalid format",
     "Please enter a valid email address.");
    ("Database error saving new user",
     "Registration failed. Please try again.");
    ("signup is disabled",
     "Registration is currently disabled. Please contact support.") ].

(** The [for ... of] loop over the entries, with its early return and
    the fall-through [return error]. *)
Fixpoint formatAuthError_loop (entries : list (string * string))
    (error : string) : string :=
  match entries with
  | [] => error
  | (key, value) :: rest =>
      if Js.includes error key then value
      else formatAuthError_loop rest error
  end.

Definition formatAuthError (error : string) : string :=
  formatAuthError_loop errorMap error.

(** ** The backend SDK, as far as the services read it *)

Module Supabase.

(** The authenticated user; the services read only its [id]. *)
Module User.
Record t : Type := mk { id : string }.
End User.

Module Session.
Record t : Type := mk { user : User.t }.
End Session.

Module AuthError.
Record t : Type := mk { message : string }.
End AuthError.

Module PostgrestError.
Record t : Type := mk { message : string }.
End PostgrestError.

(** [{ data: { user }, error }] of [auth.signUp] and
    [auth.signInWithPassword]. *)
Module AuthReply.
Record t : Type := mk { user : option User.t; error : option AuthError.t }.
End AuthReply.

(** [{ error }] of [auth.signOut]. *)
Module SignOutReply.
Record t : Type := mk { error : option AuthError.t }.
End SignOutReply.

(** [{ data, error }] of [from('profiles').select('*').eq(..).single()]. *)
Module SingleReply.
Record t : Type := mk {
  data : option Profile.t;
  error : option PostgrestError.t
}.
End SingleReply.

(** [{ error }] of [from('profiles').update(..).eq(..)]. *)
Module UpdateReply.
Record t : Type := mk { error : option PostgrestError.t }.
End UpdateReply.

(** A value caught by [catch] or [catchError] is of type [any]:
    [null] or [undefined], or an object whose [message] may be
    missing. *)
Inductive Thrown : Type :=
| ThrownNullish
| ThrownObject (message : option string).

(** How a promise settles. *)
Inductive Settled (A : Type) : Type :=
| Fulfilled (value : A)
| Rejected (reason : Thrown).
Arguments Fulfilled {A} value.
Arguments Rejected {A} reason.

End Supabase.
Import Supabase.

(** [Partial<Profile>]: every field may be absent. *)
Module PartialProfile.
Record t : Type := mk {
  id : option string;
  email : option string;
  full_name : option (option string);
  avatar_url : option (option string);
  role : option UserRole;
  created_at : option string;
  updated_at : option string
}.
End PartialProfile.

(** The requests the services send to the backend. *)
Inductive Request : Type :=
| AuthSignUp (email password full_name : string) (role : UserRole)
| AuthSignInWithPassword (email password : string)
| AuthSignOut
| ProfilesSelectSingle (userId : string)
| ProfilesUpdate (updates : PartialProfile.t) (userId : string).

(** The backend settles a request from the log of all requests sent so
    far, the request itself being the last of the log. *)
Record Backend : Type := mkBackend {
  signUp_reply : list Request -> Settled AuthReply.t;
  signInWithPassword_reply : list Request -> Settled AuthReply.t;
  signOut_reply : list Request -> Settled SignOutReply.t;
  select_single_reply : list Request -> Settled SingleReply.t;
  update_reply : list Request -> Settled UpdateReply.t
}.

(** ** SupabaseService *)

Module SupabaseService.

(** [session?.user ?? null] *)
Definition currentUser_of (session : option Session.t) : option User.t :=
  Session.user <$> session.

(** What [currentUser$] emits to a subscriber: the initial [null] of
    the [BehaviorSubject], the user of the initial session, then the
    user of every auth state change ([initAuthListener]). *)
Definition currentUser_emissions (initial : option Session.t)
    (changes : list (option Session.t)) : list (option User.t) :=
  None :: currentUser_of initial :: (currentUser_of <$> changes).

(** The service, by the value its [currentUserSubject] holds. *)
Record t : Type := mk { currentUserSubject : option User.t }.

(** [new BehaviorSubject<User | null>(null)] *)
Definition create : t := mk None.

(** The getter [currentUser]: [currentUserSubject.value]. *)
Definition currentUser (s : t) : option User.t := currentUserSubject s.

(** [isAuthenticated()]: [this.currentUser !== null] *)
Definition isAuthenticated (s : t) : bool :=
  match currentUser s with
  | Some _ => true
  | None => false
  end.

(** [currentUserSubject.next(session?.user ?? null)] *)
Definition onSession (session : option Session.t) (s : t) : t :=
  mk (currentUser_of session).

(** [initAuthListener]: the initial session, then every change. *)
Definition initAuthListener (initial : option Session.t)
    (changes : list (option Session.t)) (s : t) : t :=
  foldl (fun s session => onSession session s) s (initial :: changes).

End SupabaseService.

(** ** The state the services act on *)

(** The three signals of [AuthService], the log of the requests sent to
    the backend (oldest first) and the log of the calls of
    [router.navigate]. Console output is not modelled. *)
Record World : Type := mkWorld {
  profileSignal : option Profile.t;
  loadingSignal : bool;
  errorSignal : option string;
  requests : list Request;
  navigations : list (list string)
}.

(** A method: a state transformer with a result. *)
Definition Action (A : Type) : Type := World -> A * World.

Definition ret {A : Type} (a : A) : Action A := fun w => (a, w).

Definition bind {A B : Type} (m : Action A) (k : A -> Action B) : Action B :=
  fun w => let (a, w') := m w in k a w'.

Declare Scope action_scope.
Delimit Scope action_scope with action.
Notation "x <- m ;; k" := (bind m (fun x => k))
  (at level 100, m at next level, right associativity) : action_scope.
Notation "m ;; k" := (bind m (fun _ => k))
  (at level 100, right associativity) : action_scope.
Local Open Scope action_scope.

(** The outcome of an action and the state it leaves. *)
Definition result {A : Type} (m : Action A) (w : World) : A := (m w).1.
Definition after {A : Type} (m : Action A) (w : World) : World := (m w).2.

Definition profileSignal_set (v : option Profile.t) : Action unit :=
  fun w => (tt, mkWorld v (loadingSignal w) (errorSignal w)
                        (requests w) (navigations w)).

Definition loadingSignal_set (v : bool) : Action unit :=
  fun w => (tt, mkWorld (profileSignal w) v (errorSignal w)
                        (requests w) (navigations w)).

Definition errorSignal_set (v : option string) : Action unit :=
  fun w => (tt, mkWorld (profileSignal w) (loadingSignal w) v
                        (requests w) (navigations w)).

Definition profileSignal_get : Action (option Profile.t) :=
  fun w => (profileSignal w, w).

(** Send a request; the result is the log the backend answers from. *)
Definition send (r : Request) : Action (list Request) :=
  fun w => let log := requests w ++ [r] in
           (log, mkWorld (profileSignal w) (loadingSignal w) (errorSignal w)
                         log (navigations w)).

(** [router.navigate(commands)] *)
Definition navigate (commands : list string) : Action unit :=
  fun w => (tt, mkWorld (profileSignal w) (loadingSignal w) (errorSignal w)
                        (requests w) (navigations w ++ [commands])).

(** What an observable delivers to its subscriber: one value followed
    by completion, or an error. *)
Inductive Notification (A : Type) : Type :=
| Next (value : A)
| Error.
Arguments Next {A} value.
Arguments Error {A}.

Global Instance UserRole_eq_dec : EqDecision UserRole.
Proof. solve_decision. Defined.

(** ** AuthService (auth.service.ts) *)

Module AuthService.
Section WithBackend.

Variable supabase : Backend.

(** [computed(() => this.profileSignal() !== null)] *)
Definition isAuthenticated (w : World) : bool :=
  match profileSignal w with
  | Some _ => true
  | None => false
  end.

(** [computed(() => this.profileSignal()?.role === UserRole.ADMIN)] *)
Definition isAdmin (w : World) : bool :=
  bool_decide (Profile.role <$> profileSignal w = Some ADMIN).

(** [fetchProfile]: the [try] block sets the profile from the row, the
    [catch] block runs when the reply carries an error or the promise
    is rejected. *)
Definition fetchProfile (userId : string) : Action unit :=
  log <- send (ProfilesSelectSingle userId) ;;
  match select_single_reply supabase log with
  | Fulfilled reply =>
      match SingleReply.error reply with
      | None =>
          profileSignal_set (SingleReply.data reply) ;;
          errorSignal_set None
      | Some _ =>
          profileSignal_set None ;;
          errorSignal_set (Some "Failed to load user profile")
      end
  | Rejected _ =>
      profileSignal_set None ;;
      errorSignal_set (Some "Failed to load user profile")
  end.

(** The subscriber of [currentUser$] set up by [initializeAuth]. *)
Definition onCurrentUser (user : option User.t) : Action unit :=
  match user with
  | Some u => fetchProfile (User.id u)
  | None => profileSignal_set None
  end.

Definition clearError : Action unit := errorSignal_set None.

(** The last [map] of the pipes of [signUp] and [signIn]. *)
Definition emit {A : Type} (response : A) : Action (Notification A) :=
  loadingSignal_set false ;;
  ret (Next response).

Definition failure (error : string) : AuthResponse.t :=
  AuthResponse.mk false (Some error) None.

(** The [catchError] of [signUp] and [signIn]; reading [message] of a
    nullish value throws, and the observable then ends in an error. *)
Definition catchAuthError (reason : Thrown)
    : Action (Notification AuthResponse.t) :=
  match reason with
  | ThrownNullish => ret Error
  | ThrownObject message =>
      let errorMessage :=
        formatAuthError (Js.or_else message "An unexpected error occurred") in
      errorSignal_set (Some errorMessage) ;;
      emit (failure errorMessage)
  end.

(** The [switchMap] of [signUp] and [signIn], which differ in the two
    messages used when the reply has no user. *)
Definition onAuthReply (shown returned : string) (reply : AuthReply.t)
    : Action (Notification AuthResponse.t) :=
  match AuthReply.error reply with
  | Some error =>
      errorSignal_set (Some (formatAuthError (AuthError.message error))) ;;
      emit (failure (formatAuthError (AuthError.message error)))
  | None =>
      match AuthReply.user reply with
      | None =>
          errorSignal_set (Some shown) ;;
          emit (failure returned)
      | Some user =>
          fetchProfile (User.id user) ;;
          profile <- profileSignal_get ;;
          emit (AuthResponse.mk true None profile)
      end
  end.

Definition signUp (request : SignUpRequest.t)
    : Action (Notification AuthResponse.t) :=
  loadingSignal_set true ;;
  errorSignal_set None ;;
  log <- send (AuthSignUp (SignUpRequest.email request)
                          (SignUpRequest.password request)
                          (SignUpRequest.full_name request)
                          (default MEMBER (SignUpRequest.role request))) ;;
  match signUp_reply supabase log with
  | Fulfilled reply =>
      onAuthReply "User creation failed. Please try again."
                  "User creation failed" reply
  | Rejected reason => catchAuthError reason
  end.

Definition signIn (request : SignInRequest.t)
    : Action (Notification AuthResponse.t) :=
  loadingSignal_set true ;;
  errorSignal_set None ;;
  log <- send (AuthSignInWithPassword (SignInRequest.email request)
                                      (SignInRequest.password request)) ;;
  match signInWithPassword_reply supabase log with
  | Fulfilled reply =>
      onAuthReply "Sign in failed. Please check your credentials."
                  "Sign in failed" reply
  | Rejected reason => catchAuthError reason
  end.

(** [signOut]: [try], [catch] and [finally]. *)
Definition signOut : Action unit :=
  loadingSignal_set true ;;
  errorSignal_set None ;;
  log <- send AuthSignOut ;;
  match signOut_reply supabase log with
  | Fulfilled (SignOutReply.mk None) =>
      profileSignal_set None ;;
      navigate ["/auth/login"]
  | Fulfilled (SignOutReply.mk (Some _)) | Rejected _ =>
      errorSignal_set (Some "Failed to sign out. Please try again.") ;;
      profileSignal_set None ;;
      navigate ["/auth/login"]
  end ;;
  loadingSignal_set false.

(** [updateProfile]; [!userId] also holds for an empty id. *)
Definition updateProfile (updates : PartialProfile.t)
    : Action (Notification bool) :=
  profile <- profileSignal_get ;;
  match Profile.id <$> profile with
  | None | Some EmptyString =>
      errorSignal_set (Some "No user logged in") ;;
      ret (Next false)
  | Some userId =>
      loadingSignal_set true ;;
      log <- send (ProfilesUpdate updates userId) ;;
      result <-
        match update_reply supabase log with
        | Fulfilled (UpdateReply.mk None) =>
            fetchProfile userId ;;
            ret true
        | Fulfilled (UpdateReply.mk (Some _)) | Rejected _ =>
            errorSignal_set (Some "Failed to update profile") ;;
            ret false
        end ;;
      emit result
  end.

End WithBackend.
End AuthService.

(** The earlier, subject-based [AuthService]: its profile state and the
    two getters on it. *)
Module SubjectAuthService.

Record t : Type := mk {
  profileSubject : option Profile.t;
  loadingSubject : bool
}.

Definition currentProfile (s : t) : option Profile.t := profileSubject s.

(** [this.currentProfile !== null] *)
Definition isAuthenticated (s : t) : bool :=
  match currentProfile s with
  | Some _ => true
  | None => false
  end.

(** [this.currentProfile?.role === UserRole.ADMIN] *)
Definition isAdmin (s : t) : bool :=
  bool_decide (Profile.role <$> currentProfile s = Some ADMIN).

(** The state the subject-based service acts on: its two subjects, the
    log of the requests sent and the log of the navigations. *)
Record State : Type := mkState {
  service : t;
  sent : list Request;
  navigated : list (list string)
}.

Definition Op (A : Type) : Type := State -> A * State.

Definition pure {A : Type} (a : A) : Op A := fun s => (a, s).

Definition andThen {A B : Type} (m : Op A) (k : A -> Op B) : Op B :=
  fun s => let (a, s') := m s in k a s'.

Declare Scope op_scope.
Delimit Scope op_scope with op.
Notation "x <- m ;; k" := (andThen m (fun x => k))
  (at level 100, m at next level, right associativity) : op_scope.
Notation "m ;; k" := (andThen m (fun _ => k))
  (at level 100, right associativity) : op_scope.
Local Open Scope op_scope.

Definition outcome {A : Type} (m : Op A) (s : State) : A := (m s).1.
Definition final {A : Type} (m : Op A) (s : State) : State := (m s).2.

Definition profileSubject_next (v : option Profile.t) : Op unit :=
  fun s => (tt, mkState (mk v (loadingSubject (service s)))
                        (sent s) (navigated s)).

Definition loadingSubject_next (v : bool) : Op unit :=
  fun s => (tt, mkState (mk (profileSubject (service s)) v)
                        (sent s) (navigated s)).

Definition currentProfile_get : Op (option Profile.t) :=
  fun s => (currentProfile (service s), s).

Definition post (r : Request) : Op (list Request) :=
  fun s => let log := sent s ++ [r] in
           (log, mkState (service s) log (navigated s)).

Definition goTo (commands : list string) : Op unit :=
  fun s => (tt, mkState (service s) (sent s) (navigated s ++ [commands])).

Section WithBackend.

Variable supabase : Backend.

(** [fetchProfile]: the [catch] block only clears the profile. *)
Definition fetchProfile (userId : string) : Op unit :=
  log <- post (ProfilesSelectSingle userId) ;;
  match select_single_reply supabase log with
  | Fulfilled reply =>
      match SingleReply.error reply with
      | None => profileSubject_next (SingleReply.data reply)
      | Some _ => profileSubject_next None
      end
  | Rejected _ => profileSubject_next None
  end.

(** The subscriber of [currentUser$] set up by [initializeProfile]. *)
Definition onCurrentUser (user : option User.t) : Op unit :=
  match user with
  | Some u => fetchProfile (User.id u)
  | None => profileSubject_next None
  end.

(** The last [map] of the pipes of [signUp] and [signIn]. *)
Definition emit {A : Type} (response : A) : Op (Notification A) :=
  loadingSubject_next false ;;
  pure (Next response).

(** The [catchError] of [signUp] and [signIn]: the message of the
    thrown value as it is, or the fallback text. *)
Definition catchAuthError (reason : Thrown)
    : Op (Notification AuthResponse.t) :=
  match reason with
  | ThrownNullish => pure Error
  | ThrownObject message =>
      emit (AuthService.failure
              (Js.or_else message "An unexpected error occurred"))
  end.

(** The [switchMap] of [signUp] and [signIn]: the message of the
    backend is passed on as it is. *)
Definition onAuthReply (returned : string) (reply : AuthReply.t)
    : Op (Notification AuthResponse.t) :=
  match AuthReply.error reply with
  | Some error => emit (AuthService.failure (AuthError.message error))
  | None =>
      match AuthReply.user reply with
      | None => emit (AuthService.failure returned)
      | Some user =>
          fetchProfile (User.id user) ;;
          profile <- currentProfile_get ;;
          emit (AuthResponse.mk true None profile)
      end
  end.

Definition signUp (request : SignUpRequest.t)
    : Op (Notification AuthResponse.t) :=
  loadingSubject_next true ;;
  log <- post (AuthSignUp (SignUpRequest.email request)
                          (SignUpRequest.password request)
                          (SignUpRequest.full_name request)
                          (default MEMBER (SignUpRequest.role request))) ;;
  match signUp_reply supabase log with
  | Fulfilled reply => onAuthReply "User creation failed" reply
  | Rejected reason => catchAuthError reason
  end.

Definition signIn (request : SignInRequest.t)
    : Op (Notification AuthResponse.t) :=
  loadingSubject_next true ;;
  log <- post (AuthSignInWithPassword (SignInRequest.email request)
                                      (SignInRequest.password request)) ;;
  match signInWithPassword_reply supabase log with
  | Fulfilled reply => onAuthReply "Sign in failed" reply
  | Rejected reason => catchAuthError reason
  end.

(** [signOut]: the [catch] block only logs to the console. *)
Definition signOut : Op unit :=
  loadingSubject_next true ;;
  log <- post AuthSignOut ;;
  match signOut_reply supabase log with
  | Fulfilled (SignOutReply.mk None) =>
      profileSubject_next None ;;
      goTo ["/auth/login"]
  | Fulfilled (SignOutReply.mk (Some _)) | Rejected _ => pure tt
  end ;;
  loadingSubject_next false.

(** [updateProfile]: no subject but the profile is touched. *)
Definition updateProfile (updates : PartialProfile.t)
    : Op (Notification bool) :=
  profile <- currentProfile_get ;;
  match Profile.id <$> profile with
  | None | Some EmptyString => pure (Next false)
  | Some userId =>
      log <- post (ProfilesUpdate updates userId) ;;
      match update_reply supabase log with
      | Fulfilled (UpdateReply.mk None) =>
          fetchProfile userId ;;
          pure (Next true)
      | Fulfilled (UpdateReply.mk (Some _)) | Rejected _ =>
          pure (Next false)
      end
  end.

End WithBackend.

End SubjectAuthService.

(** ** Reactive forms, as far as the components use them *)

Module Forms.

(** The value of a control: [null], the boolean of a checkbox or the
    text of an input. *)
Inductive Value : Type :=
| VNull
| VBool (b : bool)
| VString (s : string).

Global Instance Value_eq_dec : EqDecision Value.
Proof. solve_decision. Defined.

(** [a === b] on control values. *)
Definition strict_eq (a b : Value) : bool :=
  match a, b with
  | VNull, VNull => true
  | VBool x, VBool y => Bool.eqb x y
  | VString x, VString y => String.eqb x y
  | _, _ => false
  end.

(** [String(v)], the coercion a regular expression applies. *)
Definition toString (v : Value) : string :=
  match v with
  | VNull => "null"
  | VBool true => "true"
  | VBool false => "false"
  | VString s => s
  end.

(** A [ValidationErrors] object is a map from error keys; [null]
    stands for "no error". The payload of an error is kept as [true]. *)
Abbreviation ValidationErrors := (gmap string bool).

Abbreviation ValidatorFn := (Value -> option ValidationErrors).

Record FormControl : Type := mkControl {
  value : Value;
  touched : bool;
  validators : list ValidatorFn
}.

(** A group validator receives the group as an [AbstractControl] and
    reaches its children with [get]; the group is given to it by its
    children. *)
Abbreviation GroupValidatorFn :=
  (gmap string FormControl -> option ValidationErrors).

Record FormGroup : Type := mkGroup {
  controls : gmap string FormControl;
  group_validators : list GroupValidatorFn;
  group_touched : bool
}.

(** [control.get(name)]: the child of that name, [null] without one. *)
Definition get (control : gmap string FormControl) (name : string)
    : option FormControl :=
  control !! name.

(** The framework's [isEmptyInputValue]. *)
Definition isEmptyInputValue (v : Value) : bool :=
  match v with
  | VNull | VString EmptyString => true
  | _ => false
  end.

(** [Validators.required] *)
Definition required : ValidatorFn := fun v =>
  if isEmptyInputValue v then Some {[ "required" := true ]} else None.

(** [Validators.minLength(n)]: an empty value and a value without a
    length pass. *)
Definition minLength (n : nat) : ValidatorFn := fun v =>
  match v with
  | VString s =>
      if isEmptyInputValue v then None
      else if String.length s <? n then Some {[ "minlength" := true ]}
      else None
  | _ => None
  end.

(** [Validators.email], over the test of the framework's pattern: an
    empty value passes. *)
Definition email (EMAIL_REGEXP_test : string -> bool) : ValidatorFn :=
  fun v =>
    if isEmptyInputValue v then None
    else if EMAIL_REGEXP_test (toString v) then None
    else Some {[ "email" := true ]}.

Definition control_invalid (c : FormControl) : bool :=
  existsb (fun validator => bool_decide (is_Some (validator (value c))))
          (validators c).

(** [group.invalid]: a validator of the group reports an error or a
    child is invalid. *)
Definition invalid (g : FormGroup) : bool :=
  existsb (fun validator => bool_decide (is_Some (validator (controls g))))
          (group_validators g)
  || negb (bool_decide
             (map_Forall (fun _ c => control_invalid c = false) (controls g))).

Definition markAsTouched (c : FormControl) : FormControl :=
  mkControl (value c) true (validators c).

(** [group.markAllAsTouched()] *)
Definition markAllAsTouched (g : FormGroup) : FormGroup :=
  mkGroup (markAsTouched <$> controls g) (group_validators g) true.

(** What the user's input does to a control. *)
Definition setValue (name : string) (v : Value) (g : FormGroup) : FormGroup :=
  mkGroup (alter (fun c => mkControl v (touched c) (validators c)) name
                 (controls g))
          (group_validators g) (group_touched g).

(** [group.value[name]], read into a field of type [string]; the
    inputs bound to these fields are text inputs. *)
Definition text (g : FormGroup) (name : string) : string :=
  match value <$> controls g !! name with
  | Some (VString s) => s
  | _ => ""
  end.

(** [fb.group] entry [[initial, validators]]. *)
Definition entry (initial : Value) (vs : list ValidatorFn) : FormControl :=
  mkControl initial false vs.

(** [group.errors]: what the validators of the group report, merged,
    a later report overriding an earlier one; [null] without a report. *)
Definition errors (g : FormGroup) : option ValidationErrors :=
  match omap (fun validator => validator (controls g)) (group_validators g) with
  | [] => None
  | reported => Some (foldl (fun merged e => e ∪ merged) ∅ reported)
  end.

(** [group.hasError(errorCode)]: [!!errors[errorCode]] *)
Definition hasError (g : FormGroup) (errorCode : string) : bool :=
  match errors g with
  | Some e => default false (e !! errorCode)
  | None => false
  end.

End Forms.
Import Forms.

(** ** LoginComponent, with its own [isLoading] and [errorMessage] *)

Module LoginComponent.
Section WithServices.

Variable EMAIL_REGEXP_test : string -> bool.

(** The injected [AuthService.signIn]. *)
Variable signIn : SignInRequest.t -> Action (Notification AuthResponse.t).

Record t : Type := mk {
  loginForm : FormGroup;
  isLoading : bool;
  errorMessage : option string;
  hidePassword : bool
}.

Definition initializeForm : FormGroup :=
  mkGroup (list_to_map
             [ ("email", entry (VString "")
                           [required; email EMAIL_REGEXP_test]);
               ("password", entry (VString "") [required; minLength 6]);
               ("rememberMe", entry (VBool false) []) ])
          [] false.

(** The [next] callback of the subscription. *)
Definition next (response : AuthResponse.t) (c : t) : Action t :=
  if AuthResponse.success response then
    navigate ["/dashboard"] ;;
    ret c
  else
    ret (mk (loginForm c) false
            (Some (Js.or_else (AuthResponse.error response)
                              "Sign in failed. Please try again."))
            (hidePassword c)).

(** The [error] callback of the subscription. *)
Definition error (c : t) : Action t :=
  ret (mk (loginForm c) false
          (Some "An unexpected error occured. Please try again.")
          (hidePassword c)).

Definition onSubmit (c : t) : Action t :=
  if invalid (loginForm c) then
    ret (mk (markAllAsTouched (loginForm c)) (isLoading c)
            (errorMessage c) (hidePassword c))
  else
    let c := mk (loginForm c) true None (hidePassword c) in
    let credentials :=
      SignInRequest.mk (text (loginForm c) "email")
                       (text (loginForm c) "password") in
    notification <- signIn credentials ;;
    match notification with
    | Next response => next response c
    | Error => error c
    end.

End WithServices.
End LoginComponent.

(** ** RegisterComponent *)

Module RegisterComponent.
Section WithServices.

Variable EMAIL_REGEXP_test : string -> bool.
Variable supabase : Backend.

Record t : Type := mk {
  registerForm : FormGroup;
  hidePassword : bool;
  hideConfirmPassword : bool
}.

(** [passwordMatchValidator], the same in both versions of the
    component. *)
Definition passwordMatchValidator (control : gmap string FormControl)
    : option ValidationErrors :=
  match get control "password", get control "confirmPassword" with
  | Some password, Some confirmPassword =>
      if strict_eq (value password) (value confirmPassword) then None
      else Some {[ "passwordMismatch" := true ]}
  | _, _ => None
  end.

Definition initializeForm : FormGroup :=
  mkGroup (list_to_map
             [ ("fullName", entry (VString "") [required; minLength 2]);
               ("email", entry (VString "")
                           [required; email EMAIL_REGEXP_test]);
               ("password", entry (VString "") [required; minLength 6]);
               ("confirmPassword", entry (VString "") [required]) ])
          [passwordMatchValidator] false.

(** The [effect] of the constructor: it runs again when the value of
    [isAuthenticated] has changed, and navigates when that value is
    true. *)
Definition effect (before : World) : Action unit :=
  fun w =>
    if negb (Bool.eqb (AuthService.isAuthenticated before)
                      (AuthService.isAuthenticated w))
       && AuthService.isAuthenticated w
    then navigate ["/dashboard"] w
    else (tt, w).

(** [onSubmit]; neither callback of the subscription changes the
    state. *)
Definition onSubmit (c : t) : Action t :=
  fun before =>
    (c' <-
       (if invalid (registerForm c) then
          ret (mk (markAllAsTouched (registerForm c)) (hidePassword c)
                  (hideConfirmPassword c))
        else
          AuthService.clearError ;;
          let signUpData :=
            SignUpRequest.mk (text (registerForm c) "email")
                             (text (registerForm c) "password")
                             (text (registerForm c) "fullName")
                             None in
          AuthService.signUp supabase signUpData ;;
          ret c) ;;
     effect before ;;
     ret c') before.

(** The getter [passwordsMatch]. *)
Definition passwordsMatch (c : t) : bool :=
  negb (hasError (registerForm c) "passwordMismatch").

Definition togglePasswordVisibility (c : t) : t :=
  mk (registerForm c) (negb (hidePassword c)) (hideConfirmPassword c).

Definition toggleConfirmPasswordVisibility (c : t) : t :=
  mk (registerForm c) (hidePassword c) (negb (hideConfirmPassword c)).

End WithServices.
End RegisterComponent.

(** ** LoginComponent, reading the signals of the service *)

Module SignalLoginComponent.
Section WithServices.

Variable EMAIL_REGEXP_test : string -> bool.
Variable supabase : Backend.

Record t : Type := mk {
  loginForm : FormGroup;
  hidePassword : bool
}.

Definition initializeForm : FormGroup :=
  mkGroup (list_to_map
             [ ("email", entry (VString "")
                           [required; email EMAIL_REGEXP_test]);
               ("password", entry (VString "") [required; minLength 6]);
               ("rememberMe", entry (VBool false) []) ])
          [] false.

(** The [effect] of the constructor, as in [RegisterComponent]. *)
Definition effect (before : World) : Action unit :=
  fun w =>
    if negb (Bool.eqb (AuthService.isAuthenticated before)
                      (AuthService.isAuthenticated w))
       && AuthService.isAuthenticated w
    then navigate ["/dashboard"] w
    else (tt, w).

(** [onSubmit]; neither callback of the subscription changes the
    state. *)
Definition onSubmit (c : t) : Action t :=
  fun before =>
    (c' <-
       (if invalid (loginForm c) then
          ret (mk (markAllAsTouched (loginForm c)) (hidePassword c))
        else
          AuthService.clearError ;;
          let credentials :=
            SignInRequest.mk (text (loginForm c) "email")
                             (text (loginForm c) "password") in
          AuthService.signIn supabase credentials ;;
          ret c) ;;
     effect before ;;
     ret c') before.

Definition togglePasswordVisibility (c : t) : t :=
  mk (loginForm c) (negb (hidePassword c)).

End WithServices.
End SignalLoginComponent.

(** ** RegisterComponent, with its own [isLoading] and [errorMessage] *)

Module StatefulRegisterComponent.
Section WithServices.

Variable EMAIL_REGEXP_test : string -> bool.

(** The injected [AuthService.signUp]. *)
Variable signUp : SignUpRequest.t -> Action (Notification AuthResponse.t).

Record t : Type := mk {
  registerForm : FormGroup;
  isLoading : bool;
  errorMessage : option string;
  hidePassword : bool;
  hideConfirmPassword : bool
}.

(** The same group as in [RegisterComponent]. *)
Definition initializeForm : FormGroup :=
  mkGroup (list_to_map
             [ ("fullName", entry (VString "") [required; minLength 2]);
               ("email", entry (VString "")
                           [required; email EMAIL_REGEXP_test]);
               ("password", entry (VString "") [required; minLength 6]);
               ("confirmPassword", entry (VString "") [required]) ])
          [RegisterComponent.passwordMatchValidator] false.

(** The [next] callback of the subscription. *)
Definition next (response : AuthResponse.t) (c : t) : Action t :=
  if AuthResponse.success response then
    navigate ["/dashboard"] ;;
    ret c
  else
    ret (mk (registerForm c) false
            (Some (Js.or_else (AuthResponse.error response)
                              "Registration failed. Please try again."))
            (hidePassword c) (hideConfirmPassword c)).

(** The [error] callback of the subscription. *)
Definition error (c : t) : Action t :=
  ret (mk (registerForm c) false
          (Some "An unexpected error occured. Please try again.")
          (hidePassword c) (hideConfirmPassword c)).

Definition onSubmit (c : t) : Action t :=
  if invalid (registerForm c) then
    ret (mk (markAllAsTouched (registerForm c)) (isLoading c)
            (errorMessage c) (hidePassword c) (hideConfirmPassword c))
  else
    let c := mk (registerForm c) true None (hidePassword c)
                (hideConfirmPassword c) in
    let signUpData :=
      SignUpRequest.mk (text (registerForm c) "email")
                       (text (registerForm c) "password")
                       (text (registerForm c) "fullName")
                       None in
    notification <- signUp signUpData ;;
    match notification with
    | Next response => next response c
    | Error => error c
    end.

End WithServices.
End StatefulRegisterComponent.

(** ** Entity interfaces (task.interface.ts, column.interface.ts)

    What is stated about them compares the declared types of fields, so
    the declarations are kept as data. *)

Module Interfaces.

Inductive TsType : Type :=
| TString
| TNumber
| TNull
| TEnum (name : string)
| TUnion (a b : TsType).

Global Instance TsType_eq_dec : EqDecision TsType.
Proof. solve_decision. Defined.

Record Field : Type := mkField {
  name : string;
  optional : bool;
  type : TsType
}.

(** [name: type] and [name?: type] *)
Definition field (n : string) (ty : TsType) : Field := mkField n false ty.
Definition field_opt (n : string) (ty : TsType) : Field := mkField n true ty.

Definition Task : list Field :=
  [ field "id" TString;
    field "board_id" TString;
    field "column_id" TString;
    field "title" TString;
    field "description" (TUnion TString TNull);
    field "assigned_to" (TUnion TString TNull);
    field "position" TNumber;
    field "priority" (TEnum "TaskPriority");
    field "due_date" (TUnion TString TNull);
    field "created_by" TString;
    field "created_at" TString;
    field "updated_at" TString ].

Definition CreateTaskRequest : list Field :=
  [ field "board_id" TString;
    field "column_id" TString;
    field "title" TString;
    field_opt "description" TString;
    field_opt "assigned_to" TString;
    field "position" TNumber;
    field_opt "priority" (TEnum "TaskPriority");
    field_opt "due_date" TString ].

Definition UpdateTaskRequest : list Field :=
  [ field_opt "title" TString;
    field_opt "description" TString;
    field_opt "assigned_to" TString;
    field_opt "column_id" TString;
    field_opt "position" TString;
    field_opt "priority" (TEnum "TaskPriority");
    field_opt "due_date" (TUnion TString TNull) ].

Definition Column : list Field :=
  [ field "id" TString;
    field "board_id" TString;
    field "name" TString;
    field "position" TNumber;
    field "created_at" TString;
    field "updated_at" TString ].

Definition CreateColumnRequest : list Field :=
  [ field "board_id" TString;
    field "name" TString;
    field "position" TNumber ].

Definition UpdateColumnRequest : list Field :=
  [ field_opt "name" TString;
    field_opt "position" TString ].

(** The [@property] tags of the doc comment of [UpdateColumnRequest]. *)
Definition UpdateColumnRequest_documented : list Field :=
  [ field "name" TString;
    field "position" TNumber ].

Definition typeOf (i : list Field) (field : string) : option TsType :=
  type <$> List.find (fun f => String.eqb (name f) field) i.

(** The members of a type other than [null]. *)
Fixpoint members (ty : TsType) : list TsType :=
  match ty with
  | TNull => []
  | TUnion a b => members a ++ members b
  | _ => [ty]
  end.

(** Two declared types agree up to optionality: the same members,
    [null] and the [?] of the field left aside. *)
Definition same_up_to_optionality (a b : TsType) : bool :=
  bool_decide (members a = members b).

(** The fields of [request] that [entity] declares with another
    type. *)
Definition mismatches (entity request : list Field) : list string :=
  name <$>
    List.filter
      (fun f =>
         match typeOf entity (name f) with
         | Some ty => negb (same_up_to_optionality ty (type f))
         | None => false
         end)
      request.

Definition Board : list Field :=
  [ field "id" TString;
    field "name" TString;
    field "description" (TUnion TString TNull);
    field "created_by" TString;
    field "created_at" TString;
    field "updated_at" TString ].

Definition CreateBoardRequest : list Field :=
  [ field "name" TString;
    field_opt "description" TString ].

Definition UpdateBoardRequest : list Field :=
  [ field_opt "name" TString;
    field_opt "description" TString ].

Definition Comment : list Field :=
  [ field "id" TString;
    field "task_id" TString;
    field "user_id" TString;
    field "content" TString;
    field "created_at" TString;
    field "updated_at" TString ].

Definition CreateCommentRequest : list Field :=
  [ field "task_id" TString;
    field "content" TString ].

Definition UpdateCommentRequest : list Field :=
  [ field "content" TString ].

(** The fields of [request] that [entity] does not declare. *)
Definition unknown_fields (entity request : list Field) : list string :=
  name <$>
    List.filter
      (fun f =>
         match typeOf entity (name f) with
         | Some _ => false
         | None => true
         end)
      request.

(** The fields of [entity] that [request] declares as required. *)
Definition required_fields (request : list Field) : list string :=
  name <$> List.filter (fun f => negb (optional f)) request.

(** Every request type with the entity it is about. *)
Definition request_types : list (list Field * list Field) :=
  [ (Task, CreateTaskRequest); (Task, UpdateTaskRequest);
    (Column, CreateColumnRequest); (Column, UpdateColumnRequest);
    (Board, CreateBoardRequest); (Board, UpdateBoardRequest);
    (Comment, CreateCommentRequest); (Comment, UpdateCommentRequest) ].

(** The fields of the entities that no request declares: the key, the
    author and the two timestamps. *)
Definition server_managed : list string :=
  [ "id"; "created_by"; "user_id"; "created_at"; "updated_at" ].

End Interfaces.

(** ** Forms as the user fills them *)

(** The value of a text input: its text, or [null] after a reset. *)
Definition text_value (v : option string) : Value :=
  match v with
  | Some s => VString s
  | None => VNull
  end.

(** The registration form after the four inputs were given values. *)
Definition typed (EMAIL_REGEXP_test : string -> bool)
    (fullName email password confirmPassword : Value) : FormGroup :=
  setValue "confirmPassword" confirmPassword
    (setValue "password" password
       (setValue "email" email
          (setValue "fullName" fullName
             (RegisterComponent.initializeForm EMAIL_REGEXP_test)))).

(** The login form after its three inputs were given values. *)
Definition typed_login (EMAIL_REGEXP_test : string -> bool)
    (email password rememberMe : Value) : FormGroup :=
  setValue "rememberMe" rememberMe
    (setValue "password" password
       (setValue "email" email
          (LoginComponent.initializeForm EMAIL_REGEXP_test))).

(** The state with the error signal replaced. *)
Definition with_error (e : option string) (w : World) : World :=
  after (errorSignal_set e) w.

(** A response with its error text passed through [formatAuthError]. *)
Definition friendly (response : AuthResponse.t) : AuthResponse.t :=
  AuthResponse.mk (AuthResponse.success response)
                  (formatAuthError <$> AuthResponse.error response)
                  (AuthResponse.profile response).

(** ** The services on the event loop

    Every method is cut at its [await]s. What runs between two awaits
    runs without interruption; a reply may arrive at any later time,
    after other calls, session changes and replies. *)

Module EventLoop.

(** Who awaits a profile row: the subscriber of [currentUser$], the
    [switchMap] of [signUp] and [signIn], or the one of
    [updateProfile]. *)
Inductive FetchCaller : Type :=
| BySubscriber
| ByAuthPipe
| ByUpdatePipe.

(** A method suspended at an [await], with the reply it will receive. *)
Inductive Pending : Type :=
| AwaitAuth (shown returned : string) (reply : Settled AuthReply.t)
| AwaitSignOut (reply : Settled SignOutReply.t)
| AwaitUpdate (userId : string) (reply : Settled UpdateReply.t)
| AwaitProfile (caller : FetchCaller) (reply : Settled SingleReply.t).

(** What the observables of the service have delivered. *)
Inductive Delivered : Type :=
| ToAuthSubscriber (n : Notification AuthResponse.t)
| ToUpdateSubscriber (n : Notification bool).

(** How far a pipe got: it delivered, or it waits again. *)
Inductive Progress : Type :=
| Finished (d : Delivered)
| Waiting (p : Pending).

Record t : Type := mk {
  service : SupabaseService.t;
  world : World;
  pending : list Pending;
  delivered : list Delivered
}.

Inductive Event : Type :=
| SessionChange (session : option Session.t)
| CallSignUp (request : SignUpRequest.t)
| CallSignIn (request : SignInRequest.t)
| CallSignOut
| CallUpdateProfile (updates : PartialProfile.t)
| Arrives (i : nat).

Section WithBackend.

Variable supabase : Backend.

(** [fetchProfile] up to its [await]. *)
Definition fetchProfile_begin (userId : string)
    : Action (Settled SingleReply.t) :=
  log <- send (ProfilesSelectSingle userId) ;;
  ret (select_single_reply supabase log).

(** [fetchProfile] from its [await] on. *)
Definition fetchProfile_resume (reply : Settled SingleReply.t)
    : Action unit :=
  match reply with
  | Fulfilled reply =>
      match SingleReply.error reply with
      | None =>
          profileSignal_set (SingleReply.data reply) ;;
          errorSignal_set None
      | Some _ =>
          profileSignal_set None ;;
          errorSignal_set (Some "Failed to load user profile")
      end
  | Rejected _ =>
      profileSignal_set None ;;
      errorSignal_set (Some "Failed to load user profile")
  end.

(** [signUp] up to the reply of the backend. *)
Definition signUp_begin (request : SignUpRequest.t)
    : Action (Settled AuthReply.t) :=
  loadingSignal_set true ;;
  errorSignal_set None ;;
  log <- send (AuthSignUp (SignUpRequest.email request)
                          (SignUpRequest.password request)
                          (SignUpRequest.full_name request)
                          (default MEMBER (SignUpRequest.role request))) ;;
  ret (signUp_reply supabase log).

(** [signIn] up to the reply of the backend. *)
Definition signIn_begin (request : SignInRequest.t)
    : Action (Settled AuthReply.t) :=
  loadingSignal_set true ;;
  errorSignal_set None ;;
  log <- send (AuthSignInWithPassword (SignInRequest.email request)
                                      (SignInRequest.password request)) ;;
  ret (signInWithPassword_reply supabase log).

(** The [switchMap] and [catchError] of [signUp] and [signIn], up to
    the [await] of [fetchProfile]. *)
Definition auth_resume (shown returned : string)
    (reply : Settled AuthReply.t) : Action Progress :=
  match reply with
  | Fulfilled reply =>
      match AuthReply.error reply with
      | Some error =>
          errorSignal_set
            (Some (formatAuthError (AuthError.message error))) ;;
          n <- AuthService.emit
                 (AuthService.failure
                    (formatAuthError (AuthError.message error))) ;;
          ret (Finished (ToAuthSubscriber n))
      | None =>
          match AuthReply.user reply with
          | None =>
              errorSignal_set (Some shown) ;;
              n <- AuthService.emit (AuthService.failure returned) ;;
              ret (Finished (ToAuthSubscriber n))
          | Some user =>
              row <- fetchProfile_begin (User.id user) ;;
              ret (Waiting (AwaitProfile ByAuthPipe row))
          end
      end
  | Rejected reason =>
      n <- AuthService.catchAuthError reason ;;
      ret (Finished (ToAuthSubscriber n))
  end.

(** What follows [fetchProfile] for each of its callers. *)
Definition profile_resume (caller : FetchCaller)
    (reply : Settled SingleReply.t) : Action (option Delivered) :=
  fetchProfile_resume reply ;;
  match caller with
  | BySubscriber => ret None
  | ByAuthPipe =>
      profile <- profileSignal_get ;;
      n <- AuthService.emit (AuthResponse.mk true None profile) ;;
      ret (Some (ToAuthSubscriber n))
  | ByUpdatePipe =>
      n <- AuthService.emit true ;;
      ret (Some (ToUpdateSubscriber n))
  end.

(** [signOut] up to its [await]. *)
Definition signOut_begin : Action (Settled SignOutReply.t) :=
  loadingSignal_set true ;;
  errorSignal_set None ;;
  log <- send AuthSignOut ;;
  ret (signOut_reply supabase log).

(** [signOut] from its [await] on. *)
Definition signOut_resume (reply : Settled SignOutReply.t) : Action unit :=
  match reply with
  | Fulfilled (SignOutReply.mk None) =>
      profileSignal_set None ;;
      navigate ["/auth/login"]
  | Fulfilled (SignOutReply.mk (Some _)) | Rejected _ =>
      errorSignal_set (Some "Failed to sign out. Please try again.") ;;
      profileSignal_set None ;;
      navigate ["/auth/login"]
  end ;;
  loadingSignal_set false.

(** [updateProfile] up to the reply of the backend. *)
Definition updateProfile_begin (updates : PartialProfile.t)
    : Action Progress :=
  profile <- profileSignal_get ;;
  match Profile.id <$> profile with
  | None | Some EmptyString =>
      errorSignal_set (Some "No user logged in") ;;
      ret (Finished (ToUpdateSubscriber (Next false)))
  | Some userId =>
      loadingSignal_set true ;;
      log <- send (ProfilesUpdate updates userId) ;;
      ret (Waiting (AwaitUpdate userId (update_reply supabase log)))
  end.

(** The [switchMap] and [catchError] of [updateProfile], up to the
    [await] of [fetchProfile]. *)
Definition update_resume (userId : string) (reply : Settled UpdateReply.t)
    : Action Progress :=
  match reply with
  | Fulfilled (UpdateReply.mk None) =>
      row <- fetchProfile_begin userId ;;
      ret (Waiting (AwaitProfile ByUpdatePipe row))
  | Fulfilled (UpdateReply.mk (Some _)) | Rejected _ =>
      errorSignal_set (Some "Failed to update profile") ;;
      n <- AuthService.emit false ;;
      ret (Finished (ToUpdateSubscriber n))
  end.

(** The subscriber of [currentUser$] up to its [await]. *)
Definition onCurrentUser_begin (user : option User.t)
    : Action (option Pending) :=
  match user with
  | Some u =>
      row <- fetchProfile_begin (User.id u) ;;
      ret (Some (AwaitProfile BySubscriber row))
  | None =>
      profileSignal_set None ;;
      ret None
  end.

Definition suspend (p : Pending) (w : World) (s : t) : t :=
  mk (service s) w (pending s ++ [p]) (delivered s).

Definition deliver (d : Delivered) (w : World) (s : t) : t :=
  mk (service s) w (pending s) (delivered s ++ [d]).

Definition advance (progress : Progress) (w : World) (s : t) : t :=
  match progress with
  | Finished d => deliver d w s
  | Waiting p => suspend p w s
  end.

(** The reply that a suspended method awaits arrives. *)
Definition resume (p : Pending) (s : t) : t :=
  match p with
  | AwaitAuth shown returned reply =>
      let (progress, w) := auth_resume shown returned reply (world s) in
      advance progress w s
  | AwaitSignOut reply =>
      mk (service s) (after (signOut_resume reply) (world s))
         (pending s) (delivered s)
  | AwaitUpdate userId reply =>
      let (progress, w) := update_resume userId reply (world s) in
      advance progress w s
  | AwaitProfile caller reply =>
      let (d, w) := profile_resume caller reply (world s) in
      match d with
      | Some d => deliver d w s
      | None => mk (service s) w (pending s) (delivered s)
      end
  end.

(** One turn of the event loop. A session change is what
    [initAuthListener] pushes on [currentUserSubject], handed at once to
    the subscriber of [AuthService]; [Arrives i] is the arrival of the
    reply that the [i]-th suspended method awaits. *)
Definition step (e : Event) (s : t) : t :=
  match e with
  | SessionChange session =>
      let service' := SupabaseService.onSession session (service s) in
      let (p, w) :=
        onCurrentUser_begin (SupabaseService.currentUser service') (world s) in
      let s' := mk service' w (pending s) (delivered s) in
      match p with
      | Some p => suspend p w s'
      | None => s'
      end
  | CallSignUp request =>
      let (reply, w) := signUp_begin request (world s) in
      suspend (AwaitAuth "User creation failed. Please try again."
                         "User creation failed" reply) w s
  | CallSignIn request =>
      let (reply, w) := signIn_begin request (world s) in
      suspend (AwaitAuth "Sign in failed. Please check your credentials."
                         "Sign in failed" reply) w s
  | CallSignOut =>
      let (reply, w) := signOut_begin (world s) in
      suspend (AwaitSignOut reply) w s
  | CallUpdateProfile updates =>
      let (progress, w) := updateProfile_begin updates (world s) in
      advance progress w s
  | Arrives i =>
      match pending s !! i with
      | Some p =>
          resume p (mk (service s) (world s) (delete i (pending s))
                       (delivered s))
      | None => s
      end
  end.

Definition run (events : list Event) (s : t) : t :=
  foldl (fun s e => step e s) s events.

End WithBackend.

(** A state in which no method is suspended. *)
Definition idle (service : SupabaseService.t) (w : World) : t :=
  mk service w [] [].

End EventLoop.

(** ** Requests sent by an action *)

(** The requests an action adds to the log. *)
Definition sent_by {A : Type} (m : Action A) (w : World) : list Request :=
  drop (length (requests w)) (requests (after m w)).

(** An action is a single request/response call when it adds exactly one
    request to the log. *)
Definition single_request {A : Type} (m : Action A) (w : World) : Prop :=
  exists r, requests (after m w) = requests w ++ [r].

(** The profile query that follows an auth reply: there is one when the
    reply has no error and carries a user. *)
Definition fetch_after_auth (reply : Settled AuthReply.t) : list Request :=
  match reply with
  | Fulfilled (AuthReply.mk (Some user) None) =>
      [ProfilesSelectSingle (User.id user)]
  | _ => []
  end.

(** The profile query that follows an update reply: there is one when
    the reply has no error. *)
Definition fetch_after_update (userId : string)
    (reply : Settled UpdateReply.t) : list Request :=
  match reply with
  | Fulfilled (UpdateReply.mk None) => [ProfilesSelectSingle userId]
  | _ => []
  end.

(** The requests of [updateProfile]: none without the id of a cached
    profile, else the update and the profile query that may follow. *)
Definition updateProfile_sent (supabase : Backend)
    (updates : PartialProfile.t) (w : World) : list Request :=
  match Profile.id <$> profileSignal w with
  | None | Some EmptyString => []
  | Some userId =>
      let r := ProfilesUpdate updates userId in
      r :: fetch_after_update userId (update_reply supabase (requests w ++ [r]))
  end.

(** ** Counting requests on the event loop *)

(** The requests one turn of the event loop sends. *)
Definition sent_at (e : EventLoop.Event) (s : EventLoop.t) : list Request :=
  match e with
  | EventLoop.SessionChange (Some session) =>
      [ProfilesSelectSingle (User.id (Session.user session))]
  | EventLoop.SessionChange None => []
  | EventLoop.CallSignUp request =>
      [AuthSignUp (SignUpRequest.email request)
                  (SignUpRequest.password request)
                  (SignUpRequest.full_name request)
                  (default MEMBER (SignUpRequest.role request))]
  | EventLoop.CallSignIn request =>
      [AuthSignInWithPassword (SignInRequest.email request)
                              (SignInRequest.password request)]
  | EventLoop.CallSignOut => [AuthSignOut]
  | EventLoop.CallUpdateProfile updates =>
      match Profile.id <$> profileSignal (EventLoop.world s) with
      | None | Some EmptyString => []
      | Some userId => [ProfilesUpdate updates userId]
      end
  | EventLoop.Arrives i =>
      match EventLoop.pending s !! i with
      | Some (EventLoop.AwaitAuth _ _ reply) => fetch_after_auth reply
      | Some (EventLoop.AwaitUpdate userId reply) =>
          fetch_after_update userId reply
      | _ => []
      end
  end.

(** The calls of public operations among the events. *)
Definition calls (events : list EventLoop.Event) : nat :=
  length (List.filter
            (fun e => match e with
                      | EventLoop.CallSignUp _ | EventLoop.CallSignIn _
                      | EventLoop.CallSignOut
                      | EventLoop.CallUpdateProfile _ => true
                      | _ => false
                      end)
            events).

(** The session changes that carry a user. *)
Definition user_sessions (events : list EventLoop.Event) : nat :=
  length (List.filter
            (fun e => match e with
                      | EventLoop.SessionChange (Some _) => true
                      | _ => false
                      end)
            events).

(** The suspended methods that may still send a request when they
    resume. *)
Definition may_send (l : list EventLoop.Pending) : nat :=
  length (List.filter
            (fun p => match p with
                      | EventLoop.AwaitAuth _ _ _
                      | EventLoop.AwaitUpdate _ _ => true
                      | _ => false
                      end)
            l).

(** ** Sample data *)

Module Samples.

Definition alice : Profile.t :=
  Profile.mk "u1" "alice@example.com" (Some "Alice") None ADMIN
             "2024-01-01T00:00:00Z" "2024-01-01T00:00:00Z".

(** A backend that accepts every request and knows [alice]. *)
Definition accepting : Backend :=
  mkBackend
    (fun _ => Fulfilled (AuthReply.mk (Some (User.mk "u1")) None))
    (fun _ => Fulfilled (AuthReply.mk (Some (User.mk "u1")) None))
    (fun _ => Fulfilled (SignOutReply.mk None))
    (fun _ => Fulfilled (SingleReply.mk (Some alice) None))
    (fun _ => Fulfilled (UpdateReply.mk None)).

(** The state of a freshly created service. *)
Definition fresh : World := mkWorld None false None [] [].

Definition credentials : SignInRequest.t :=
  SignInRequest.mk "alice@example.com" "secret1".

Definition registration : SignUpRequest.t :=
  SignUpRequest.mk "alice@example.com" "secret1" "Alice" None.

(** A backend whose sign-in fails with an empty error message. *)
Definition silent : Backend :=
  mkBackend
    (fun _ => Fulfilled (AuthReply.mk None (Some (AuthError.mk ""))))
    (fun _ => Fulfilled (AuthReply.mk None (Some (AuthError.mk ""))))
    (fun _ => Fulfilled (SignOutReply.mk None))
    (fun _ => Fulfilled (SingleReply.mk None None))
    (fun _ => Fulfilled (UpdateReply.mk None)).

(** A stand-in for the test of the framework's e-mail pattern. *)
Definition has_at (s : string) : bool := Js.includes s "@".

(** The login component as created, and once filled in. *)
Definition login : LoginComponent.t :=
  LoginComponent.mk (LoginComponent.initializeForm has_at) false None true.

Definition login_filled : LoginComponent.t :=
  LoginComponent.mk
    (setValue "password" (VString "secret1")
       (setValue "email" (VString "alice@example.com")
          (LoginComponent.initializeForm has_at)))
    false None true.

(** The registration component as created. *)
Definition register : RegisterComponent.t :=
  RegisterComponent.mk (RegisterComponent.initializeForm has_at) true true.

(** A group whose two password controls differ. *)
Definition mismatched : gmap string FormControl :=
  list_to_map [ ("password", entry (VString "secret1") []);
                ("confirmPassword", entry (VString "secret2") []) ].

(** A backend whose auth promises are rejected with [undefined]. *)
Definition broken : Backend :=
  mkBackend
    (fun _ => Rejected ThrownNullish)
    (fun _ => Rejected ThrownNullish)
    (fun _ => Rejected ThrownNullish)
    (fun _ => Rejected ThrownNullish)
    (fun _ => Rejected ThrownNullish).

(** A backend that accepts the credentials but fails on the profile
    row. *)
Definition rowless : Backend :=
  mkBackend
    (fun _ => Fulfilled (AuthReply.mk (Some (User.mk "u1")) None))
    (fun _ => Fulfilled (AuthReply.mk (Some (User.mk "u1")) None))
    (fun _ => Fulfilled (SignOutReply.mk None))
    (fun _ => Fulfilled (SingleReply.mk None
                           (Some (PostgrestError.mk "no rows"))))
    (fun _ => Fulfilled (UpdateReply.mk None)).

(** The registration component with its own [isLoading], filled in. *)
Definition register_filled : StatefulRegisterComponent.t :=
  StatefulRegisterComponent.mk
    (typed has_at (VString "Alice") (VString "alice@example.com")
       (VString "secret1") (VString "secret1"))
    false None true true.

(** The two components that read the signals, filled in. *)
Definition signal_login_filled : SignalLoginComponent.t :=
  SignalLoginComponent.mk
    (typed_login has_at (VString "alice@example.com") (VString "secret1")
       (VBool false))
    true.

Definition signal_register_filled : RegisterComponent.t :=
  RegisterComponent.mk
    (typed has_at (VString "Alice") (VString "alice@example.com")
       (VString "secret1") (VString "secret1"))
    true true.

(** The state of a freshly created subject-based service. *)
Definition fresh_subject : SubjectAuthService.State :=
  SubjectAuthService.mkState (SubjectAuthService.mk None false) [] [].

(** The state of a service that holds the profile of [alice]. *)
Definition signed_in : World := mkWorld (Some alice) false None [] [].

End Samples.

(** ** Facts about strings *)

Section StringFacts.

Lemma append_cons (c : Ascii.ascii) (s t : string) :
  String c s +:+ t = String c (s +:+ t).
Proof. reflexivity. Qed.

Lemma prefix_true_iff (key s : string) :
  String.prefix key s = true <-> exists after, s = key +:+ after.
Proof.
  revert s. induction key as [|c key IH]; intros s; simpl.
  - split; [intros _; by exists s | by destruct s].
  - destruct s as [|d s]; simpl.
    + split; [done | by intros [after ?]].
    + destruct (Ascii.ascii_dec c d) as [->|Hne].
      * rewrite IH. split; intros [after Heq]; exists after;
          rewrite append_cons in *; congruence.
      * split; [done|].
        intros [after Heq]. rewrite append_cons in Heq. congruence.
Qed.

Lemma includes_true_iff (s key : string) :
  Js.includes s key = true <-> Js.contains s key.
Proof.
  unfold Js.contains. induction s as [|c s IH].
  - cbn [Js.includes]. rewrite orb_false_r, prefix_true_iff. split.
    + intros [after Heq]. by exists "", after.
    + intros [before [after Heq]]. destruct before; [by exists after|done].
  - cbn [Js.includes]. rewrite orb_true_iff, IH, prefix_true_iff. split.
    + intros [[after Heq]|[before [after Heq]]].
      * by exists "", after.
      * exists (String c before), after. by rewrite append_cons, Heq.
    + intros [before [after Heq]]. destruct before as [|d before].
      * left. by exists after.
      * right. exists before, after. rewrite append_cons in Heq. congruence.
Qed.

Lemma includes_false_iff (s key : string) :
  Js.includes s key = false <-> ~ Js.contains s key.
Proof.
  rewrite <- includes_true_iff. by destruct (Js.includes s key).
Qed.

End StringFacts.

(** ** Facts about [formatAuthError] *)

Section FormatAuthError.

(** The loop returns the value of the first entry whose key the error
    contains, and the error itself when there is none. *)
Lemma formatAuthError_loop_spec (entries : list (string * string))
    (e : string) :
  (exists (i : nat) key value,
      entries !! i = Some (key, value) /\
      Js.contains e key /\
      (forall (j : nat) key' value',
          j < i -> entries !! j = Some (key', value') ->
          ~ Js.contains e key') /\
      formatAuthError_loop entries e = value)
  \/
  ((forall key value, (key, value) ∈ entries -> ~ Js.contains e key) /\
   formatAuthError_loop entries e = e).
Proof.
  induction entries as [|[key value] rest IH]; simpl.
  - right. split; [|done]. intros key value Hin. by apply elem_of_nil in Hin.
  - destruct (Js.includes e key) eqn:Hinc.
    + left. exists 0, key, value. repeat split; try done.
      * by apply includes_true_iff.
      * intros j ? ? Hj. lia.
    + apply includes_false_iff in Hinc.
      destruct IH as [(i & k & v & Hi & Hk & Hfirst & Hres)|[Hnone Hres]].
      * left. exists (S i), k, v. repeat split; try done.
        intros [|j] k' v' Hj Hlook; simpl in Hlook.
        -- by injection Hlook as <- <-.
        -- apply (Hfirst j k' v'); [lia|done].
      * right. split; [|done]. intros k v Hin.
        apply elem_of_cons in Hin as [[= -> ->]|Hin]; [done|by eapply Hnone].
Qed.

End FormatAuthError.

(** C2. For every error string [e], [formatAuthError e] is the friendly
    message of the first pattern of the seven-entry table that [e]
    contains (so a message containing 'Invalid login credentials' and no
    other pattern becomes 'Invalid email or password. Please try
    again.'), and it is [e] itself when [e] contains no pattern of the
    table. *)
Theorem formatAuthError_first_known_pattern (e : string) :
  length errorMap = 7 /\
  errorMap !! 0 = Some ("Invalid login credentials",
                        "Invalid email or password. Please try again.") /\
  ((exists (i : nat) key value,
       errorMap !! i = Some (key, value) /\
       Js.contains e key /\
       (forall (j : nat) key' value',
           j < i -> errorMap !! j = Some (key', value') ->
           ~ Js.contains e key') /\
       formatAuthError e = value)
   \/
   ((forall key value, (key, value) ∈ errorMap -> ~ Js.contains e key) /\
    formatAuthError e = e)).
Proof.
  split; [done|]. split; [done|]. apply formatAuthError_loop_spec.
Qed.

(** ** Facts about the actions of [AuthService] *)

Section AuthServiceFacts.

Variable supabase : Backend.

Lemma sent_by_app {A : Type} (m : Action A) (w : World) (l : list Request) :
  requests (after m w) = requests w ++ l -> sent_by m w = l.
Proof. unfold sent_by. intros ->. apply drop_app_length. Qed.

Lemma fetchProfile_requests (userId : string) (w : World) :
  requests (after (AuthService.fetchProfile supabase userId) w) =
  requests w ++ [ProfilesSelectSingle userId].
Proof.
  unfold after, AuthService.fetchProfile, bind, send. simpl.
  destruct (select_single_reply supabase _) as [[data [e|]]|reason];
    reflexivity.
Qed.

Lemma signUp_requests (request : SignUpRequest.t) (w : World) :
  let r := AuthSignUp (SignUpRequest.email request)
                      (SignUpRequest.password request)
                      (SignUpRequest.full_name request)
                      (default MEMBER (SignUpRequest.role request)) in
  requests (after (AuthService.signUp supabase request) w) =
  requests w ++ r :: fetch_after_auth (signUp_reply supabase (requests w ++ [r])).
Proof.
  unfold after, AuthService.signUp, bind, send. simpl.
  destruct (signUp_reply supabase _) as [[[user|] [e|]]|[|message]];
    simpl; try reflexivity.
  unfold AuthService.onAuthReply, bind. simpl.
  destruct (AuthService.fetchProfile supabase (User.id user) _)
    as [[] w'] eqn:Hfetch.
  simpl. apply (f_equal snd) in Hfetch. simpl in Hfetch.
  pose proof (fetchProfile_requests (User.id user)) as Hlog.
  unfold after in Hlog. rewrite <- Hfetch, Hlog. simpl.
  by rewrite <- app_assoc.
Qed.

Lemma signIn_requests (request : SignInRequest.t) (w : World) :
  let r := AuthSignInWithPassword (SignInRequest.email request)
                                  (SignInRequest.password request) in
  requests (after (AuthService.signIn supabase request) w) =
  requests w ++
    r :: fetch_after_auth (signInWithPassword_reply supabase (requests w ++ [r])).
Proof.
  unfold after, AuthService.signIn, bind, send. simpl.
  destruct (signInWithPassword_reply supabase _)
    as [[[user|] [e|]]|[|message]];
    simpl; try reflexivity.
  unfold AuthService.onAuthReply, bind. simpl.
  destruct (AuthService.fetchProfile supabase (User.id user) _)
    as [[] w'] eqn:Hfetch.
  simpl. apply (f_equal snd) in Hfetch. simpl in Hfetch.
  pose proof (fetchProfile_requests (User.id user)) as Hlog.
  unfold after in Hlog. rewrite <- Hfetch, Hlog. simpl.
  by rewrite <- app_assoc.
Qed.

Lemma signOut_requests (w : World) :
  requests (after (AuthService.signOut supabase) w) =
  requests w ++ [AuthSignOut].
Proof.
  unfold after, AuthService.signOut, bind, send. simpl.
  destruct (signOut_reply supabase _) as [[[e|]]|reason]; reflexivity.
Qed.

Lemma updateProfile_requests (updates : PartialProfile.t) (w : World) :
  requests (after (AuthService.updateProfile supabase updates) w) =
  requests w ++ updateProfile_sent supabase updates w.
Proof.
  unfold after, AuthService.updateProfile, updateProfile_sent, bind,
    profileSignal_get.
  destruct (profileSignal w) as [profile|] eqn:Hprofile; simpl;
    [|by rewrite app_nil_r].
  destruct (Profile.id profile) as [|c userId] eqn:Hid; simpl;
    [by rewrite app_nil_r|].
  destruct (update_reply supabase _) as [[[e|]]|reason];
    simpl; try reflexivity.
  destruct (AuthService.fetchProfile supabase (String c userId) _)
    as [[] w'] eqn:Hfetch.
  simpl. apply (f_equal snd) in Hfetch. simpl in Hfetch.
  pose proof (fetchProfile_requests (String c userId)) as Hlog.
  unfold after in Hlog. rewrite <- Hfetch, Hlog. simpl.
  by rewrite <- app_assoc.
Qed.

Lemma fetch_after_auth_length (reply : Settled AuthReply.t) :
  length (fetch_after_auth reply) <= 1.
Proof. destruct reply as [[[user|] [e|]]|reason]; simpl; lia. Qed.

Lemma fetch_after_update_length (userId : string)
    (reply : Settled UpdateReply.t) :
  length (fetch_after_update userId reply) <= 1.
Proof. destruct reply as [[[e|]]|reason]; simpl; lia. Qed.

End AuthServiceFacts.

(** ** The requests of the public operations *)

(** C1, as the specification words it, fails: a sign-in that the backend
    accepts sends the credentials and then queries the profile row, two
    requests for one user action. *)
Lemma signIn_accepted_sends_two_requests :
  requests (after (AuthService.signIn Samples.accepting Samples.credentials)
                  Samples.fresh) =
    [ AuthSignInWithPassword "alice@example.com" "secret1";
      ProfilesSelectSingle "u1" ] /\
  ~ single_request (AuthService.signIn Samples.accepting Samples.credentials)
                   Samples.fresh.
Proof.
  split; [reflexivity|].
  intros [r Hr]. vm_compute in Hr. discriminate Hr.
Qed.

(** The requests of a public operation that runs alone, its replies
    arriving at once: at most two. [signOut] sends exactly one;
    [signUp] and [signIn] one auth request, followed by one query of
    the profile row exactly when the auth reply has no error and
    carries a user; [updateProfile] none when no profile id is cached,
    otherwise one update, followed by one query of the profile row
    exactly when the update reply has no error. *)
Lemma operation_alone_sends_at_most_two_requests
    (supabase : Backend) (w : World)
    (registration : SignUpRequest.t) (credentials : SignInRequest.t)
    (updates : PartialProfile.t) :
  let up := AuthSignUp (SignUpRequest.email registration)
                       (SignUpRequest.password registration)
                       (SignUpRequest.full_name registration)
                       (default MEMBER (SignUpRequest.role registration)) in
  let inn := AuthSignInWithPassword (SignInRequest.email credentials)
                                    (SignInRequest.password credentials) in
  (sent_by (AuthService.signUp supabase registration) w =
     up :: fetch_after_auth (signUp_reply supabase (requests w ++ [up]))) /\
  (sent_by (AuthService.signIn supabase credentials) w =
     inn :: fetch_after_auth
              (signInWithPassword_reply supabase (requests w ++ [inn]))) /\
  (sent_by (AuthService.signOut supabase) w = [AuthSignOut]) /\
  (sent_by (AuthService.updateProfile supabase updates) w =
     updateProfile_sent supabase updates w) /\
  length (sent_by (AuthService.signUp supabase registration) w) <= 2 /\
  length (sent_by (AuthService.signIn supabase credentials) w) <= 2 /\
  length (sent_by (AuthService.signOut supabase) w) <= 2 /\
  length (sent_by (AuthService.updateProfile supabase updates) w) <= 2.
Proof.
  intros up inn.
  assert (Hup := sent_by_app _ _ _ (signUp_requests supabase registration w)).
  assert (Hin := sent_by_app _ _ _ (signIn_requests supabase credentials w)).
  assert (Hout := sent_by_app _ _ _ (signOut_requests supabase w)).
  assert (Hupd := sent_by_app _ _ _ (updateProfile_requests supabase updates w)).
  cbv zeta in Hup, Hin. fold up in Hup. fold inn in Hin.
  repeat split; try assumption.
  - rewrite Hup. simpl.
    pose proof (fetch_after_auth_length
                  (signUp_reply supabase (requests w ++ [up]))). lia.
  - rewrite Hin. simpl.
    pose proof (fetch_after_auth_length
                  (signInWithPassword_reply supabase (requests w ++ [inn]))).
    lia.
  - rewrite Hout. simpl. lia.
  - rewrite Hupd. unfold updateProfile_sent.
    destruct (Profile.id <$> profileSignal w) as [[|c userId]|]; simpl;
      try lia.
    pose proof (fetch_after_update_length (String c userId)
                  (update_reply supabase
                     (requests w ++ [ProfilesUpdate updates (String c userId)]))).
    lia.
Qed.

(** ** The profile cache *)

(** C3. For every emission of [currentUser$] the profile cache takes the
    remote auth state: on [null] the profile signal becomes [null] and
    [isAuthenticated] is false; on a user the profile row of that user's
    id is queried and stored in the signal, and when the query fails
    (an error in the reply or a rejected promise) the signal is [null]
    and the error signal is 'Failed to load user profile'. *)
Theorem profile_cache_mirrors_currentUser (supabase : Backend) (w : World)
    (session : option Session.t) :
  let w' := after (AuthService.onCurrentUser supabase
                     (SupabaseService.currentUser_of session)) w in
  match session with
  | None =>
      profileSignal w' = None /\
      AuthService.isAuthenticated w' = false /\
      requests w' = requests w
  | Some (Session.mk user) =>
      let query := ProfilesSelectSingle (User.id user) in
      requests w' = requests w ++ [query] /\
      match select_single_reply supabase (requests w ++ [query]) with
      | Fulfilled (SingleReply.mk row None) =>
          profileSignal w' = row /\ errorSignal w' = None
      | Fulfilled (SingleReply.mk _ (Some _)) | Rejected _ =>
          profileSignal w' = None /\
          errorSignal w' = Some "Failed to load user profile"
      end
  end.
Proof.
  destruct session as [[user]|]; simpl.
  - split; [apply fetchProfile_requests|].
    unfold after, AuthService.fetchProfile, bind, send. simpl.
    destruct (select_single_reply supabase _) as [[row [e|]]|reason];
      by split.
  - by repeat split.
Qed.

(** ** The responses of [signIn] and [signUp] *)

(** C4. Every [AuthResponse] that [signIn] or [signUp] emits is well
    formed: with [success] false, [error] is not [null] and [profile] is
    [null]; with [success] true, [error] is [null]. *)
Theorem auth_response_well_formed (supabase : Backend) (w : World)
    (registration : SignUpRequest.t) (credentials : SignInRequest.t)
    (response : AuthResponse.t) :
  result (AuthService.signUp supabase registration) w = Next response \/
  result (AuthService.signIn supabase credentials) w = Next response ->
  (AuthResponse.success response = false ->
     AuthResponse.error response <> None /\
     AuthResponse.profile response = None) /\
  (AuthResponse.success response = true ->
     AuthResponse.error response = None).
Proof.
  unfold result, AuthService.signUp, AuthService.signIn, bind, send. simpl.
  intros [H|H]; revert H.
  - destruct (signUp_reply supabase _) as [[[user|] [e|]]|[|message]];
      simpl; unfold AuthService.onAuthReply, bind; simpl;
      try destruct (AuthService.fetchProfile supabase _ _) as [[] w'];
      simpl; intros [= <-]; by split.
  - destruct (signInWithPassword_reply supabase _)
      as [[[user|] [e|]]|[|message]];
      simpl; unfold AuthService.onAuthReply, bind; simpl;
      try destruct (AuthService.fetchProfile supabase _ _) as [[] w'];
      simpl; intros [= <-]; by split.
Qed.

(** The response of a sign-in that the sample backend accepts. *)
Lemma auth_response_well_formed_witness :
  AuthResponse.error (AuthResponse.mk true None (Some Samples.alice)) = None.
Proof.
  apply (auth_response_well_formed Samples.accepting Samples.fresh
           Samples.registration Samples.credentials
           (AuthResponse.mk true None (Some Samples.alice))).
  - right. reflexivity.
  - reflexivity.
Defined.

(** ** Signing out *)

(** C9. Whatever the backend answers to the sign-out call, [signOut]
    ends with the profile signal [null], one navigation to
    '/auth/login' issued and the loading signal false; when the reply
    carries an error or the promise is rejected, the error signal is
    'Failed to sign out. Please try again.' (and it is [null] when the
    call succeeds). *)
Theorem signOut_always_clears_profile (supabase : Backend) (w : World) :
  let w' := after (AuthService.signOut supabase) w in
  profileSignal w' = None /\
  navigations w' = navigations w ++ [["/auth/login"]] /\
  loadingSignal w' = false /\
  errorSignal w' =
    match signOut_reply supabase (requests w ++ [AuthSignOut]) with
    | Fulfilled (SignOutReply.mk None) => None
    | Fulfilled (SignOutReply.mk (Some _)) | Rejected _ =>
        Some "Failed to sign out. Please try again."
    end.
Proof.
  unfold after, AuthService.signOut, bind, send. simpl.
  destruct (signOut_reply supabase _) as [[[e|]]|reason]; by repeat split.
Qed.

(** ** Roles *)

(** C10. In every state of the profile, [isAdmin] implies
    [isAuthenticated]: when [isAdmin] is true the profile is not [null]
    and [isAuthenticated] is true; this holds for the signal-based
    service and for the subject-based one. *)
Theorem isAdmin_implies_isAuthenticated (w : World)
    (s : SubjectAuthService.t) :
  (AuthService.isAdmin w = true ->
     profileSignal w <> None /\ AuthService.isAuthenticated w = true) /\
  (SubjectAuthService.isAdmin s = true ->
     SubjectAuthService.profileSubject s <> None /\
     SubjectAuthService.isAuthenticated s = true).
Proof.
  unfold AuthService.isAdmin, AuthService.isAuthenticated,
    SubjectAuthService.isAdmin, SubjectAuthService.isAuthenticated,
    SubjectAuthService.currentProfile.
  split; intros H; apply bool_decide_eq_true in H.
  - by destruct (profileSignal w).
  - by destruct (SubjectAuthService.profileSubject s).
Qed.

(** Both services holding the profile of an administrator. *)
Lemma isAdmin_implies_isAuthenticated_witness :
  (profileSignal (mkWorld (Some Samples.alice) false None [] []) <> None /\
   AuthService.isAuthenticated
     (mkWorld (Some Samples.alice) false None [] []) = true) /\
  (SubjectAuthService.profileSubject
     (SubjectAuthService.mk (Some Samples.alice) false) <> None /\
   SubjectAuthService.isAuthenticated
     (SubjectAuthService.mk (Some Samples.alice) false) = true).
Proof.
  split.
  - apply (isAdmin_implies_isAuthenticated
             (mkWorld (Some Samples.alice) false None [] [])
             (SubjectAuthService.mk (Some Samples.alice) false)).
    reflexivity.
  - apply (isAdmin_implies_isAuthenticated
             (mkWorld (Some Samples.alice) false None [] [])
             (SubjectAuthService.mk (Some Samples.alice) false)).
    reflexivity.
Defined.

(** ** Facts about forms *)

Section FormFacts.

Variable EMAIL_REGEXP_test : string -> bool.

Lemma strict_eq_true_iff (a b : Value) : strict_eq a b = true <-> a = b.
Proof.
  destruct a as [|x|x], b as [|y|y]; simpl; try by split.
  - destruct x, y; by split.
  - rewrite String.eqb_eq. split; congruence.
Qed.

Lemma text_value_inj (a b : option string) :
  text_value a = text_value b <-> a = b.
Proof. destruct a, b; simpl; split; congruence. Qed.

Lemma required_minLength_valid (v : option string) (t : bool) (n : nat) :
  0 < n ->
  control_invalid (mkControl (text_value v) t [required; minLength n]) = false
  <-> exists s, v = Some s /\ n <= String.length s.
Proof.
  intros Hn. unfold control_invalid. simpl.
  destruct v as [[|c s]|]; simpl.
  - split; [done|]. intros (s & [= <-] & Hlen). simpl in Hlen. lia.
  - destruct (Nat.ltb_spec (S (String.length s)) n) as [Hlt|Hge]; simpl.
    + split; [done|]. intros (s' & [= <-] & Hlen). simpl in Hlen. lia.
    + split; [|done]. intros _. by exists (String c s).
  - split; [done|]. by intros (s & ? & _).
Qed.

Lemma required_email_valid (v : option string) (t : bool) :
  control_invalid
    (mkControl (text_value v) t [required; email EMAIL_REGEXP_test]) = false
  <-> exists s, v = Some s /\ s <> "" /\ EMAIL_REGEXP_test s = true.
Proof.
  unfold control_invalid, email. simpl.
  destruct v as [[|c s]|]; simpl.
  - split; [done|]. by intros (s & [= <-] & ? & _).
  - destruct (EMAIL_REGEXP_test (String c s)) eqn:Htest; simpl.
    + split; [|done]. intros _. by exists (String c s).
    + split; [done|]. intros (s' & [= <-] & _ & Htest'). congruence.
  - split; [done|]. by intros (s & ? & _).
Qed.

Lemma required_valid (v : option string) (t : bool) :
  control_invalid (mkControl (text_value v) t [required]) = false
  <-> exists s, v = Some s /\ s <> "".
Proof.
  unfold control_invalid. simpl.
  destruct v as [[|c s]|]; simpl.
  - split; [done|]. by intros (s & [= <-] & ?).
  - split; [|done]. intros _. by exists (String c s).
  - split; [done|]. by intros (s & ? & _).
Qed.

Lemma typed_controls (f e p c : Value) :
  controls (typed EMAIL_REGEXP_test f e p c) =
  list_to_map
    [ ("fullName", mkControl f false [required; minLength 2]);
      ("email", mkControl e false [required; email EMAIL_REGEXP_test]);
      ("password", mkControl p false [required; minLength 6]);
      ("confirmPassword", mkControl c false [required]) ].
Proof. reflexivity. Qed.

Lemma passwordMatchValidator_typed (f e p c : Value) :
  RegisterComponent.passwordMatchValidator
    (controls (typed EMAIL_REGEXP_test f e p c)) =
  if strict_eq p c then None else Some {[ "passwordMismatch" := true ]}.
Proof. reflexivity. Qed.

(** The typed form is valid when the two passwords are strictly equal
    and no control is invalid. *)
Lemma typed_valid_iff (f e p c : Value) :
  invalid (typed EMAIL_REGEXP_test f e p c) = false <->
  strict_eq p c = true /\
  control_invalid (mkControl f false [required; minLength 2]) = false /\
  control_invalid
    (mkControl e false [required; email EMAIL_REGEXP_test]) = false /\
  control_invalid (mkControl p false [required; minLength 6]) = false /\
  control_invalid (mkControl c false [required]) = false.
Proof.
  unfold invalid.
  change (group_validators (typed EMAIL_REGEXP_test f e p c))
    with [RegisterComponent.passwordMatchValidator].
  cbn [existsb]. rewrite passwordMatchValidator_typed, typed_controls.
  rewrite !orb_false_iff, negb_false_iff, bool_decide_eq_true.
  cbn [list_to_map foldr uncurry fst snd].
  rewrite !map_Forall_insert by done.
  split.
  - intros [[Hmatch _] (Hf & He & Hp & Hc & _)].
    destruct (strict_eq p c); [done|].
    apply bool_decide_eq_false in Hmatch. destruct Hmatch. by eexists.
  - intros (Hmatch & Hf & He & Hp & Hc). rewrite Hmatch.
    repeat split; try done.
Qed.

(** Without one of the two controls the validator reports no error. *)
Lemma passwordMatchValidator_missing_control
    (control : gmap string FormControl) :
  get control "password" = None \/ get control "confirmPassword" = None ->
  RegisterComponent.passwordMatchValidator control = None.
Proof.
  unfold RegisterComponent.passwordMatchValidator.
  intros [-> | ->]; [done|]. by destruct (get control "password").
Qed.

(** [markAllAsTouched] touches every control and keeps its value and
    its validators. *)
Lemma markAllAsTouched_lookup (g : FormGroup) (name : string) :
  controls (markAllAsTouched g) !! name =
  (fun c => mkControl (value c) true (validators c)) <$> controls g !! name.
Proof. unfold markAllAsTouched. simpl. by rewrite lookup_fmap. Qed.

End FormFacts.

(** ** Form validation *)

(** C5. The registration form is valid only when [fullName] has at
    least 2 characters, [email] is well formed (present and accepted by
    the e-mail pattern), [password] has at least 6 characters and
    [confirmPassword] is present; these four constraints together with
    the equality of the two passwords are exactly what makes it valid.
    And on a control that has both a [password] and a [confirmPassword]
    child, [passwordMatchValidator] returns [null] if and only if their
    values are equal, and [{passwordMismatch: true}] otherwise. *)
Theorem registration_form_validates_constraints
    (EMAIL_REGEXP_test : string -> bool)
    (fullName email password confirmPassword : option string)
    (control : gmap string FormControl) (pw cpw : FormControl) :
  (invalid (typed EMAIL_REGEXP_test (text_value fullName) (text_value email)
              (text_value password) (text_value confirmPassword)) = false
   <->
   (exists s, fullName = Some s /\ 2 <= String.length s) /\
   (exists s, email = Some s /\ s <> "" /\ EMAIL_REGEXP_test s = true) /\
   (exists s, password = Some s /\ 6 <= String.length s) /\
   (exists s, confirmPassword = Some s /\ s <> "") /\
   password = confirmPassword)
  /\
  (get control "password" = Some pw ->
   get control "confirmPassword" = Some cpw ->
   (RegisterComponent.passwordMatchValidator control = None
      <-> value pw = value cpw) /\
   (value pw <> value cpw ->
      RegisterComponent.passwordMatchValidator control =
        Some {[ "passwordMismatch" := true ]})).
Proof.
  split.
  - rewrite typed_valid_iff, strict_eq_true_iff, text_value_inj.
    rewrite !required_minLength_valid by lia.
    rewrite required_email_valid, required_valid. tauto.
  - intros Hpw Hcpw. unfold RegisterComponent.passwordMatchValidator.
    rewrite Hpw, Hcpw.
    destruct (strict_eq (value pw) (value cpw)) eqn:Heq.
    + apply strict_eq_true_iff in Heq. by split.
    + assert (value pw <> value cpw) as Hne.
      { intros H. apply strict_eq_true_iff in H. congruence. }
      by split.
Qed.

(** A group whose passwords differ reports the mismatch. *)
Lemma registration_form_validates_constraints_witness :
  RegisterComponent.passwordMatchValidator Samples.mismatched =
    Some {[ "passwordMismatch" := true ]}.
Proof.
  apply (registration_form_validates_constraints Samples.has_at
           (Some "Alice") (Some "alice@example.com")
           (Some "secret1") (Some "secret1")
           Samples.mismatched
           (entry (VString "secret1") []) (entry (VString "secret2") [])).
  - reflexivity.
  - reflexivity.
  - discriminate.
Defined.

(** ** The login page and the response of the service *)

(** C6, as the specification words it, fails: a sign-in that the backend
    refuses with an empty message delivers [error: ''], which is not
    [null], and [errorMessage] becomes the fallback text, not the empty
    [response.error]; so does submitting the filled-in form against such
    a backend. *)
Lemma login_next_empty_error_shows_fallback :
  let response := AuthResponse.mk false (Some "") None in
  result (AuthService.signIn Samples.silent Samples.credentials)
         Samples.fresh = Next response /\
  AuthResponse.error response <> None /\
  LoginComponent.errorMessage
    (result (LoginComponent.next response Samples.login) Samples.fresh) =
    Some "Sign in failed. Please try again." /\
  LoginComponent.errorMessage
    (result (LoginComponent.next response Samples.login) Samples.fresh) <>
    AuthResponse.error response /\
  LoginComponent.errorMessage
    (result (LoginComponent.onSubmit (AuthService.signIn Samples.silent)
                                     Samples.login_filled)
            Samples.fresh) =
    Some "Sign in failed. Please try again.".
Proof. by repeat split. Qed.

(** C6, amended. For every [AuthResponse] delivered to the subscriber of
    [LoginComponent.onSubmit]: when [success] is true a navigation to
    '/dashboard' is issued; otherwise [errorMessage] is set to
    [response.error], or to 'Sign in failed. Please try again.' when
    [response.error] is [null] or the empty string, and [isLoading] is
    set to false. *)
Theorem login_next_reflects_response (response : AuthResponse.t)
    (c : LoginComponent.t) (w : World) :
  let c' := result (LoginComponent.next response c) w in
  let w' := after (LoginComponent.next response c) w in
  if AuthResponse.success response then
    navigations w' = navigations w ++ [["/dashboard"]]
  else
    LoginComponent.errorMessage c' =
      Some match AuthResponse.error response with
           | None | Some EmptyString => "Sign in failed. Please try again."
           | Some e => e
           end /\
    LoginComponent.isLoading c' = false /\
    w' = w.
Proof.
  unfold result, after, LoginComponent.next.
  destruct response as [[] [[|a e]|] profile]; by simpl.
Qed.

(** ** Submitting an invalid form *)

(** C8. Submitting the login form or the registration form while it is
    invalid sends no request and changes no auth state: the service is
    not called, the signals, the request log and the navigations are as
    before, [isLoading] and [errorMessage] are as before; the only
    effect is that all controls of the form are marked as touched. *)
Theorem invalid_submit_only_marks_touched
    (signIn : SignInRequest.t -> Action (Notification AuthResponse.t))
    (supabase : Backend)
    (login : LoginComponent.t) (register : RegisterComponent.t) (w : World) :
  (invalid (LoginComponent.loginForm login) = true ->
   LoginComponent.onSubmit signIn login w =
     (LoginComponent.mk (markAllAsTouched (LoginComponent.loginForm login))
                        (LoginComponent.isLoading login)
                        (LoginComponent.errorMessage login)
                        (LoginComponent.hidePassword login),
      w)) /\
  (invalid (RegisterComponent.registerForm register) = true ->
   RegisterComponent.onSubmit supabase register w =
     (RegisterComponent.mk
        (markAllAsTouched (RegisterComponent.registerForm register))
        (RegisterComponent.hidePassword register)
        (RegisterComponent.hideConfirmPassword register),
      w)).
Proof.
  split; intros Hinvalid.
  - unfold LoginComponent.onSubmit. by rewrite Hinvalid.
  - unfold RegisterComponent.onSubmit, RegisterComponent.effect, bind, ret.
    rewrite Hinvalid. simpl.
    by rewrite Bool.eqb_reflx.
Qed.

(** Submitting both forms as created, that is, empty. *)
Lemma invalid_submit_only_marks_touched_witness :
  LoginComponent.onSubmit (AuthService.signIn Samples.accepting)
                          Samples.login Samples.fresh =
    (LoginComponent.mk
       (markAllAsTouched (LoginComponent.loginForm Samples.login))
       false None true,
     Samples.fresh) /\
  RegisterComponent.onSubmit Samples.accepting Samples.register Samples.fresh =
    (RegisterComponent.mk
       (markAllAsTouched (RegisterComponent.registerForm Samples.register))
       true true,
     Samples.fresh).
Proof.
  split.
  - apply (invalid_submit_only_marks_touched
             (AuthService.signIn Samples.accepting) Samples.accepting
             Samples.login Samples.register Samples.fresh).
    reflexivity.
  - apply (invalid_submit_only_marks_touched
             (AuthService.signIn Samples.accepting) Samples.accepting
             Samples.login Samples.register Samples.fresh).
    reflexivity.
Defined.

(** ** Entities and their update requests *)

(** C7 does not hold of the declarations: among the fields that an
    update request shares with its entity, [position] is declared
    [string] in [UpdateTaskRequest] and in [UpdateColumnRequest] while
    [Task], [Column], the two create requests and the doc comment of
    [UpdateColumnRequest] have it as [number]; every other shared field
    agrees up to optionality. *)
Theorem update_request_position_is_string :
  Interfaces.typeOf Interfaces.Task "position" = Some Interfaces.TNumber /\
  Interfaces.typeOf Interfaces.UpdateTaskRequest "position" =
    Some Interfaces.TString /\
  Interfaces.typeOf Interfaces.Column "position" = Some Interfaces.TNumber /\
  Interfaces.typeOf Interfaces.UpdateColumnRequest "position" =
    Some Interfaces.TString /\
  Interfaces.typeOf Interfaces.UpdateColumnRequest_documented "position" =
    Some Interfaces.TNumber /\
  Interfaces.typeOf Interfaces.CreateTaskRequest "position" =
    Some Interfaces.TNumber /\
  Interfaces.typeOf Interfaces.CreateColumnRequest "position" =
    Some Interfaces.TNumber /\
  Interfaces.mismatches Interfaces.Task Interfaces.UpdateTaskRequest =
    ["position"] /\
  Interfaces.mismatches Interfaces.Column Interfaces.UpdateColumnRequest =
    ["position"].
Proof. by repeat split. Qed.


(** * Further properties of the code *)

(** ** Error texts *)

(** Formatting an error text twice is formatting it once: no friendly
    message contains a pattern of the table. *)
Theorem formatAuthError_idempotent (e : string) :
  formatAuthError (formatAuthError e) = formatAuthError e.
Proof.
  unfold formatAuthError.
  destruct (formatAuthError_loop_spec errorMap e)
    as [(i & key & value & Hi & _ & _ & Hvalue)|[_ Hsame]].
  - rewrite Hvalue.
    do 7 (destruct i as [|i]; [injection Hi as <- <-; reflexivity|]).
    discriminate Hi.
  - by rewrite !Hsame.
Qed.

(** ** The signals after [signUp] and [signIn] *)

Ltac run_auth :=
  unfold result, after, AuthService.signUp, AuthService.signIn,
    AuthService.onAuthReply, AuthService.catchAuthError,
    AuthService.fetchProfile, AuthService.emit, bind, ret, send,
    profileSignal_get; simpl.

(** When [signUp] or [signIn] emits a response the loading signal is
    false, and a failure is shown in the error signal: the signal holds
    the error text of the response, except when the reply has neither an
    error nor a user, where the signal holds a longer text than the
    response. *)
Theorem auth_failure_is_shown_in_error_signal (supabase : Backend)
    (w : World) (registration : SignUpRequest.t)
    (credentials : SignInRequest.t) (r : AuthResponse.t) :
  let up := AuthSignUp (SignUpRequest.email registration)
                       (SignUpRequest.password registration)
                       (SignUpRequest.full_name registration)
                       (default MEMBER (SignUpRequest.role registration)) in
  let inn := AuthSignInWithPassword (SignInRequest.email credentials)
                                    (SignInRequest.password credentials) in
  (result (AuthService.signUp supabase registration) w = Next r ->
   let w' := after (AuthService.signUp supabase registration) w in
   loadingSignal w' = false /\
   (AuthResponse.success r = false ->
    match signUp_reply supabase (requests w ++ [up]) with
    | Fulfilled (AuthReply.mk None None) =>
        errorSignal w' = Some "User creation failed. Please try again." /\
        AuthResponse.error r = Some "User creation failed"
    | _ => errorSignal w' = AuthResponse.error r
    end)) /\
  (result (AuthService.signIn supabase credentials) w = Next r ->
   let w' := after (AuthService.signIn supabase credentials) w in
   loadingSignal w' = false /\
   (AuthResponse.success r = false ->
    match signInWithPassword_reply supabase (requests w ++ [inn]) with
    | Fulfilled (AuthReply.mk None None) =>
        errorSignal w' =
          Some "Sign in failed. Please check your credentials." /\
        AuthResponse.error r = Some "Sign in failed"
    | _ => errorSignal w' = AuthResponse.error r
    end)).
Proof.
  split; run_auth.
  - destruct (signUp_reply supabase _) as [[[user|] [e|]]|[|message]];
      simpl; try discriminate;
      try destruct (select_single_reply supabase _) as [[row [e'|]]|reason];
      simpl; intros [= <-]; simpl; by repeat split.
  - destruct (signInWithPassword_reply supabase _)
      as [[[user|] [e|]]|[|message]];
      simpl; try discriminate;
      try destruct (select_single_reply supabase _) as [[row [e'|]]|reason];
      simpl; intros [= <-]; simpl; by repeat split.
Qed.

(** A sign-in refused with an empty message. *)
Lemma auth_failure_is_shown_in_error_signal_witness :
  loadingSignal
    (after (AuthService.signIn Samples.silent Samples.credentials)
           Samples.fresh) = false.
Proof.
  apply (auth_failure_is_shown_in_error_signal Samples.silent Samples.fresh
           Samples.registration Samples.credentials
           (AuthResponse.mk false (Some "") None)).
  reflexivity.
Defined.

(** A successful response of [signUp] or [signIn] carries the profile
    signal as the profile query left it: the row when the query
    succeeds, and [null], with the error signal 'Failed to load user
    profile', when it fails. So [success: true] does not promise a
    profile. *)
Theorem auth_success_carries_profile_signal (supabase : Backend)
    (w : World) (registration : SignUpRequest.t)
    (credentials : SignInRequest.t) (r : AuthResponse.t) :
  (result (AuthService.signUp supabase registration) w = Next r ->
   AuthResponse.success r = true ->
   let w' := after (AuthService.signUp supabase registration) w in
   AuthResponse.profile r = profileSignal w' /\
   match select_single_reply supabase (requests w') with
   | Fulfilled (SingleReply.mk row None) =>
       AuthResponse.profile r = row /\ errorSignal w' = None
   | Fulfilled (SingleReply.mk _ (Some _)) | Rejected _ =>
       AuthResponse.profile r = None /\
       errorSignal w' = Some "Failed to load user profile"
   end) /\
  (result (AuthService.signIn supabase credentials) w = Next r ->
   AuthResponse.success r = true ->
   let w' := after (AuthService.signIn supabase credentials) w in
   AuthResponse.profile r = profileSignal w' /\
   match select_single_reply supabase (requests w') with
   | Fulfilled (SingleReply.mk row None) =>
       AuthResponse.profile r = row /\ errorSignal w' = None
   | Fulfilled (SingleReply.mk _ (Some _)) | Rejected _ =>
       AuthResponse.profile r = None /\
       errorSignal w' = Some "Failed to load user profile"
   end).
Proof.
  split; run_auth.
  - destruct (signUp_reply supabase _) as [[[user|] [e|]]|[|message]];
      simpl; try discriminate; try (intros [= <-]; discriminate);
      destruct (select_single_reply supabase _)
        as [[row [e'|]]|reason] eqn:Hrow;
      simpl; intros [= <-] _; rewrite Hrow; by repeat split.
  - destruct (signInWithPassword_reply supabase _)
      as [[[user|] [e|]]|[|message]];
      simpl; try discriminate; try (intros [= <-]; discriminate);
      destruct (select_single_reply supabase _)
        as [[row [e'|]]|reason] eqn:Hrow;
      simpl; intros [= <-] _; rewrite Hrow; by repeat split.
Qed.

(** A sign-in that is accepted while the profile row cannot be read. *)
Lemma auth_success_carries_profile_signal_witness :
  AuthResponse.profile (AuthResponse.mk true None None) =
    profileSignal
      (after (AuthService.signIn Samples.rowless Samples.credentials)
             Samples.fresh) /\
  errorSignal
    (after (AuthService.signIn Samples.rowless Samples.credentials)
           Samples.fresh) = Some "Failed to load user profile".
Proof.
  pose proof (proj2 (auth_success_carries_profile_signal Samples.rowless
                       Samples.fresh Samples.registration Samples.credentials
                       (AuthResponse.mk true None None))
                eq_refl eq_refl) as [Hprofile Hrow].
  split; [exact Hprofile | exact (proj2 Hrow)].
Defined.

(** When the auth promise is rejected with [null] or [undefined],
    [signUp] and [signIn] deliver an error instead of a response and
    the loading signal stays true; no other signal is touched after the
    error signal was cleared. *)
Theorem nullish_rejection_leaves_loading_on (supabase : Backend)
    (w : World) (registration : SignUpRequest.t)
    (credentials : SignInRequest.t) :
  let up := AuthSignUp (SignUpRequest.email registration)
                       (SignUpRequest.password registration)
                       (SignUpRequest.full_name registration)
                       (default MEMBER (SignUpRequest.role registration)) in
  let inn := AuthSignInWithPassword (SignInRequest.email credentials)
                                    (SignInRequest.password credentials) in
  (signUp_reply supabase (requests w ++ [up]) = Rejected ThrownNullish ->
   let w' := after (AuthService.signUp supabase registration) w in
   result (AuthService.signUp supabase registration) w = Error /\
   loadingSignal w' = true /\ errorSignal w' = None /\
   profileSignal w' = profileSignal w) /\
  (signInWithPassword_reply supabase (requests w ++ [inn]) =
     Rejected ThrownNullish ->
   let w' := after (AuthService.signIn supabase credentials) w in
   result (AuthService.signIn supabase credentials) w = Error /\
   loadingSignal w' = true /\ errorSignal w' = None /\
   profileSignal w' = profileSignal w).
Proof.
  split; run_auth; intros ->; by repeat split.
Qed.

(** Both operations against a backend that rejects with [undefined]. *)
Lemma nullish_rejection_leaves_loading_on_witness :
  loadingSignal
    (after (AuthService.signUp Samples.broken Samples.registration)
           Samples.fresh) = true /\
  loadingSignal
    (after (AuthService.signIn Samples.broken Samples.credentials)
           Samples.fresh) = true.
Proof.
  split.
  - apply (proj1 (nullish_rejection_leaves_loading_on Samples.broken
                    Samples.fresh Samples.registration Samples.credentials)
             eq_refl).
  - apply (proj2 (nullish_rejection_leaves_loading_on Samples.broken
                    Samples.fresh Samples.registration Samples.credentials)
             eq_refl).
Defined.

(** ** [updateProfile] *)

Ltac run_service :=
  unfold result, after, with_error, AuthService.updateProfile,
    AuthService.signOut, AuthService.fetchProfile, AuthService.emit,
    bind, ret, send, navigate, profileSignal_get, profileSignal_set,
    loadingSignal_set, errorSignal_set; simpl.

(** [updateProfile] reports the update and nothing else. Without a
    cached profile id it emits false, shows 'No user logged in' and
    touches nothing else. With one, the loading signal ends false, a
    failed update emits false, shows 'Failed to update profile' and
    keeps the cached profile, and an accepted update emits true whatever
    the refresh of the profile gives: the row, or [null] with 'Failed to
    load user profile'. *)
Theorem updateProfile_reports_the_update_only (supabase : Backend)
    (w : World) (updates : PartialProfile.t) :
  let w' := after (AuthService.updateProfile supabase updates) w in
  let emitted := result (AuthService.updateProfile supabase updates) w in
  match Profile.id <$> profileSignal w with
  | None | Some EmptyString =>
      emitted = Next false /\
      w' = with_error (Some "No user logged in") w
  | Some userId =>
      loadingSignal w' = false /\
      match update_reply supabase
              (requests w ++ [ProfilesUpdate updates userId]) with
      | Fulfilled (UpdateReply.mk None) =>
          emitted = Next true /\
          match select_single_reply supabase (requests w') with
          | Fulfilled (SingleReply.mk row None) =>
              profileSignal w' = row /\ errorSignal w' = None
          | Fulfilled (SingleReply.mk _ (Some _)) | Rejected _ =>
              profileSignal w' = None /\
              errorSignal w' = Some "Failed to load user profile"
          end
      | Fulfilled (UpdateReply.mk (Some _)) | Rejected _ =>
          emitted = Next false /\
          errorSignal w' = Some "Failed to update profile" /\
          profileSignal w' = profileSignal w
      end
  end.
Proof.
  run_service.
  destruct (profileSignal w) as [profile|] eqn:Hprofile; simpl; [|done].
  destruct (Profile.id profile) as [|c userId]; simpl; [done|].
  destruct (update_reply supabase _) as [[[e|]]|reason]; simpl;
    try by rewrite ?Hprofile.
  destruct (select_single_reply supabase _) as [[row [e|]]|reason] eqn:Hrow;
    simpl; rewrite Hrow; by repeat split.
Qed.


(** ** The error signal *)

(** An error shown before one of the four public operations never
    survives it: the error signal the operation leaves does not depend
    on the error signal it found. *)
Theorem stale_error_never_survives (supabase : Backend) (w : World)
    (stale : option string) (registration : SignUpRequest.t)
    (credentials : SignInRequest.t) (updates : PartialProfile.t) :
  errorSignal (after (AuthService.signUp supabase registration)
                     (with_error stale w)) =
    errorSignal (after (AuthService.signUp supabase registration) w) /\
  errorSignal (after (AuthService.signIn supabase credentials)
                     (with_error stale w)) =
    errorSignal (after (AuthService.signIn supabase credentials) w) /\
  errorSignal (after (AuthService.signOut supabase) (with_error stale w)) =
    errorSignal (after (AuthService.signOut supabase) w) /\
  errorSignal (after (AuthService.updateProfile supabase updates)
                     (with_error stale w)) =
    errorSignal (after (AuthService.updateProfile supabase updates) w).
Proof.
  split; [reflexivity|]. split; [reflexivity|]. split; [reflexivity|].
  run_service.
  destruct (profileSignal w) as [profile|]; simpl; [|done].
  destruct (Profile.id profile) as [|c userId]; simpl; [done|].
  destruct (update_reply supabase _) as [[[e|]]|reason]; simpl; try done.
  by destruct (select_single_reply supabase _) as [[row [e'|]]|reason].
Qed.

(** ** The subject-based service *)

Ltac run_subject :=
  unfold SubjectAuthService.outcome, SubjectAuthService.final,
    SubjectAuthService.signUp, SubjectAuthService.signIn,
    SubjectAuthService.signOut, SubjectAuthService.onAuthReply,
    SubjectAuthService.catchAuthError, SubjectAuthService.fetchProfile,
    SubjectAuthService.emit, SubjectAuthService.andThen,
    SubjectAuthService.pure, SubjectAuthService.post,
    SubjectAuthService.goTo, SubjectAuthService.currentProfile_get,
    SubjectAuthService.profileSubject_next,
    SubjectAuthService.loadingSubject_next; simpl.

(** The signal-based [signUp] and [signIn] deliver what the
    subject-based ones deliver, with the error text passed through
    [formatAuthError]: started with the same request log and the same
    profile, the two versions send the same requests, end with the same
    profile, and the response of the one is the response of the other
    made friendly. *)
Theorem signal_service_formats_subject_response (supabase : Backend)
    (w : World) (st : SubjectAuthService.State)
    (registration : SignUpRequest.t) (credentials : SignInRequest.t) :
  requests w = SubjectAuthService.sent st ->
  profileSignal w =
    SubjectAuthService.profileSubject (SubjectAuthService.service st) ->
  (let w' := after (AuthService.signUp supabase registration) w in
   let st' := SubjectAuthService.final
                (SubjectAuthService.signUp supabase registration) st in
   result (AuthService.signUp supabase registration) w =
     match SubjectAuthService.outcome
             (SubjectAuthService.signUp supabase registration) st with
     | Next r => Next (friendly r)
     | Error => Error
     end /\
   requests w' = SubjectAuthService.sent st' /\
   profileSignal w' =
     SubjectAuthService.profileSubject (SubjectAuthService.service st')) /\
  (let w' := after (AuthService.signIn supabase credentials) w in
   let st' := SubjectAuthService.final
                (SubjectAuthService.signIn supabase credentials) st in
   result (AuthService.signIn supabase credentials) w =
     match SubjectAuthService.outcome
             (SubjectAuthService.signIn supabase credentials) st with
     | Next r => Next (friendly r)
     | Error => Error
     end /\
   requests w' = SubjectAuthService.sent st' /\
   profileSignal w' =
     SubjectAuthService.profileSubject (SubjectAuthService.service st')).
Proof.
  intros Hlog Hprofile. split; run_auth; run_subject; rewrite <- Hlog.
  - destruct (signUp_reply supabase _) as [[[user|] [e|]]|[|message]];
      simpl; try done.
    by destruct (select_single_reply supabase _) as [[row [e'|]]|reason].
  - destruct (signInWithPassword_reply supabase _)
      as [[[user|] [e|]]|[|message]];
      simpl; try done.
    by destruct (select_single_reply supabase _) as [[row [e'|]]|reason].
Qed.

(** Both versions signing in from their fresh states. *)
Lemma signal_service_formats_subject_response_witness :
  result (AuthService.signIn Samples.silent Samples.credentials)
         Samples.fresh =
    match SubjectAuthService.outcome
            (SubjectAuthService.signIn Samples.silent Samples.credentials)
            Samples.fresh_subject with
    | Next r => Next (friendly r)
    | Error => Error
    end.
Proof.
  apply (proj2 (signal_service_formats_subject_response Samples.silent
                  Samples.fresh Samples.fresh_subject
                  Samples.registration Samples.credentials
                  eq_refl eq_refl)).
Defined.

(** The subject-based [signOut] always sends one request and ends with
    loading false, but it clears the profile and navigates to
    '/auth/login' only when the backend accepts the sign-out: on an
    error reply or a rejected promise the profile stays and nothing is
    navigated. *)
Theorem subject_signOut_failure_keeps_profile (supabase : Backend)
    (st : SubjectAuthService.State) :
  let st' := SubjectAuthService.final (SubjectAuthService.signOut supabase)
               st in
  SubjectAuthService.loadingSubject (SubjectAuthService.service st') = false /\
  SubjectAuthService.sent st' = SubjectAuthService.sent st ++ [AuthSignOut] /\
  match signOut_reply supabase (SubjectAuthService.sent st ++ [AuthSignOut])
  with
  | Fulfilled (SignOutReply.mk None) =>
      SubjectAuthService.profileSubject (SubjectAuthService.service st') =
        None /\
      SubjectAuthService.navigated st' =
        SubjectAuthService.navigated st ++ [["/auth/login"]]
  | Fulfilled (SignOutReply.mk (Some _)) | Rejected _ =>
      SubjectAuthService.profileSubject (SubjectAuthService.service st') =
        SubjectAuthService.profileSubject (SubjectAuthService.service st) /\
      SubjectAuthService.navigated st' = SubjectAuthService.navigated st
  end.
Proof.
  run_subject.
  destruct (signOut_reply supabase _) as [[[e|]]|reason]; by repeat split.
Qed.

(** ** Submitting forms *)

Section SubmitFacts.

Lemma markAllAsTouched_idempotent (g : FormGroup) :
  markAllAsTouched (markAllAsTouched g) = markAllAsTouched g.
Proof.
  unfold markAllAsTouched. simpl. f_equal.
  rewrite <- map_fmap_compose. by apply map_fmap_ext.
Qed.

Lemma children_invalid_markAsTouched (m : gmap string FormControl) :
  bool_decide (map_Forall (fun _ c => control_invalid c = false)
                          (markAsTouched <$> m)) =
  bool_decide (map_Forall (fun _ c => control_invalid c = false) m).
Proof. apply bool_decide_ext. by rewrite map_Forall_fmap. Qed.

Lemma passwordMatchValidator_markAsTouched (m : gmap string FormControl) :
  RegisterComponent.passwordMatchValidator (markAsTouched <$> m) =
  RegisterComponent.passwordMatchValidator m.
Proof.
  unfold RegisterComponent.passwordMatchValidator, get.
  rewrite !lookup_fmap.
  by destruct (m !! "password"), (m !! "confirmPassword").
Qed.

(** Touching the controls of a login or registration form does not
    change whether it is invalid. *)
Lemma invalid_markAllAsTouched (g : FormGroup) :
  group_validators g = [] \/
  group_validators g = [RegisterComponent.passwordMatchValidator] ->
  invalid (markAllAsTouched g) = invalid g.
Proof.
  unfold invalid, markAllAsTouched. simpl.
  intros [-> | ->]; simpl;
    by rewrite ?passwordMatchValidator_markAsTouched,
         children_invalid_markAsTouched.
Qed.

(** [setValue] keeps the validators of the group. *)
Lemma group_validators_setValue (name : string) (v : Value) (g : FormGroup) :
  group_validators (setValue name v g) = group_validators g.
Proof. reflexivity. Qed.

End SubmitFacts.

(** Submitting an invalid login or registration form a second time
    changes nothing more: the form is still invalid after its controls
    were touched, so the second submit again only touches them. *)
Theorem invalid_submit_is_idempotent
    (signIn : SignInRequest.t -> Action (Notification AuthResponse.t))
    (supabase : Backend)
    (login : LoginComponent.t) (register : RegisterComponent.t) (w : World) :
  (group_validators (LoginComponent.loginForm login) = [] ->
   invalid (LoginComponent.loginForm login) = true ->
   LoginComponent.onSubmit signIn
     (result (LoginComponent.onSubmit signIn login) w)
     (after (LoginComponent.onSubmit signIn login) w) =
   LoginComponent.onSubmit signIn login w) /\
  (group_validators (RegisterComponent.registerForm register) =
     [RegisterComponent.passwordMatchValidator] ->
   invalid (RegisterComponent.registerForm register) = true ->
   RegisterComponent.onSubmit supabase
     (result (RegisterComponent.onSubmit supabase register) w)
     (after (RegisterComponent.onSubmit supabase register) w) =
   RegisterComponent.onSubmit supabase register w).
Proof.
  split; intros Hvalidators Hinvalid.
  - unfold result, after, LoginComponent.onSubmit. rewrite Hinvalid. simpl.
    rewrite invalid_markAllAsTouched, Hinvalid by (by left).
    unfold ret. by rewrite markAllAsTouched_idempotent.
  - unfold result, after, RegisterComponent.onSubmit,
      RegisterComponent.effect, bind, ret.
    rewrite Hinvalid. simpl. rewrite Bool.eqb_reflx. simpl.
    rewrite invalid_markAllAsTouched, Hinvalid by (by right).
    rewrite Bool.eqb_reflx. simpl.
    by rewrite markAllAsTouched_idempotent.
Qed.

(** Submitting both forms twice as created, that is, empty. *)
Lemma invalid_submit_is_idempotent_witness :
  LoginComponent.onSubmit (AuthService.signIn Samples.accepting)
    (result (LoginComponent.onSubmit (AuthService.signIn Samples.accepting)
                                     Samples.login) Samples.fresh)
    (after (LoginComponent.onSubmit (AuthService.signIn Samples.accepting)
                                    Samples.login) Samples.fresh) =
  LoginComponent.onSubmit (AuthService.signIn Samples.accepting)
    Samples.login Samples.fresh /\
  RegisterComponent.onSubmit Samples.accepting
    (result (RegisterComponent.onSubmit Samples.accepting Samples.register)
            Samples.fresh)
    (after (RegisterComponent.onSubmit Samples.accepting Samples.register)
           Samples.fresh) =
  RegisterComponent.onSubmit Samples.accepting Samples.register Samples.fresh.
Proof.
  split.
  - apply (proj1 (invalid_submit_is_idempotent
                    (AuthService.signIn Samples.accepting) Samples.accepting
                    Samples.login Samples.register Samples.fresh));
      reflexivity.
  - apply (proj2 (invalid_submit_is_idempotent
                    (AuthService.signIn Samples.accepting) Samples.accepting
                    Samples.login Samples.register Samples.fresh));
      reflexivity.
Defined.

(** On a valid login form [LoginComponent.onSubmit] calls [signIn] once
    with the e-mail and the password of the form, and never changes the
    form. When the response is a success it navigates to '/dashboard'
    and leaves [isLoading] true; otherwise it navigates nowhere, sets
    [isLoading] to false and shows a message that is neither [null] nor
    empty. *)
Theorem login_valid_submit_outcome
    (signIn : SignInRequest.t -> Action (Notification AuthResponse.t))
    (c : LoginComponent.t) (w : World) :
  invalid (LoginComponent.loginForm c) = false ->
  let credentials :=
    SignInRequest.mk (text (LoginComponent.loginForm c) "email")
                     (text (LoginComponent.loginForm c) "password") in
  let w1 := after (signIn credentials) w in
  let c' := result (LoginComponent.onSubmit signIn c) w in
  let w' := after (LoginComponent.onSubmit signIn c) w in
  LoginComponent.loginForm c' = LoginComponent.loginForm c /\
  LoginComponent.hidePassword c' = LoginComponent.hidePassword c /\
  match result (signIn credentials) w with
  | Next (AuthResponse.mk true _ _) =>
      w' = after (navigate ["/dashboard"]) w1 /\
      LoginComponent.isLoading c' = true /\
      LoginComponent.errorMessage c' = None
  | Next (AuthResponse.mk false _ _) | Error =>
      w' = w1 /\
      LoginComponent.isLoading c' = false /\
      exists message,
        LoginComponent.errorMessage c' = Some message /\ message <> ""
  end.
Proof.
  intros Hvalid. unfold result, after, LoginComponent.onSubmit.
  rewrite Hvalid. unfold bind. simpl.
  destruct (signIn _ w) as [[[[] [[|a e]|] profile]|] w1]; simpl;
    repeat split; try done; by eexists.
Qed.

(** The filled-in login form submitted to a backend that accepts. *)
Lemma login_valid_submit_outcome_witness :
  LoginComponent.loginForm
    (result (LoginComponent.onSubmit (AuthService.signIn Samples.accepting)
                                     Samples.login_filled) Samples.fresh) =
  LoginComponent.loginForm Samples.login_filled.
Proof.
  apply (login_valid_submit_outcome (AuthService.signIn Samples.accepting)
           Samples.login_filled Samples.fresh).
  reflexivity.
Defined.

(** On a valid registration form [onSubmit] of the component with its
    own [isLoading] calls [signUp] once with the e-mail, password and
    full name of the form and no role, and never changes the form. When
    the response is a success it navigates to '/dashboard' and leaves
    [isLoading] true; otherwise it navigates nowhere, sets [isLoading]
    to false and shows a message that is neither [null] nor empty. *)
Theorem register_valid_submit_outcome
    (signUp : SignUpRequest.t -> Action (Notification AuthResponse.t))
    (c : StatefulRegisterComponent.t) (w : World) :
  invalid (StatefulRegisterComponent.registerForm c) = false ->
  let signUpData :=
    SignUpRequest.mk
      (text (StatefulRegisterComponent.registerForm c) "email")
      (text (StatefulRegisterComponent.registerForm c) "password")
      (text (StatefulRegisterComponent.registerForm c) "fullName")
      None in
  let w1 := after (signUp signUpData) w in
  let c' := result (StatefulRegisterComponent.onSubmit signUp c) w in
  let w' := after (StatefulRegisterComponent.onSubmit signUp c) w in
  StatefulRegisterComponent.registerForm c' =
    StatefulRegisterComponent.registerForm c /\
  match result (signUp signUpData) w with
  | Next (AuthResponse.mk true _ _) =>
      w' = after (navigate ["/dashboard"]) w1 /\
      StatefulRegisterComponent.isLoading c' = true /\
      StatefulRegisterComponent.errorMessage c' = None
  | Next (AuthResponse.mk false _ _) | Error =>
      w' = w1 /\
      StatefulRegisterComponent.isLoading c' = false /\
      exists message,
        StatefulRegisterComponent.errorMessage c' = Some message /\
        message <> ""
  end.
Proof.
  intros Hvalid. unfold result, after, StatefulRegisterComponent.onSubmit.
  rewrite Hvalid. unfold bind. simpl.
  destruct (signUp _ w) as [[[[] [[|a e]|] profile]|] w1]; simpl;
    repeat split; try done; by eexists.
Qed.

(** The filled-in registration form submitted to a backend that
    accepts. *)
Lemma register_valid_submit_outcome_witness :
  StatefulRegisterComponent.registerForm
    (result (StatefulRegisterComponent.onSubmit
               (AuthService.signUp Samples.accepting) Samples.register_filled)
            Samples.fresh) =
  StatefulRegisterComponent.registerForm Samples.register_filled.
Proof.
  apply (register_valid_submit_outcome (AuthService.signUp Samples.accepting)
           Samples.register_filled Samples.fresh).
  reflexivity.
Defined.

(** ** Validity of the forms *)

(** [passwordsMatch] is true exactly when the values of [password] and
    [confirmPassword] are equal, whatever the other controls hold and
    whether or not they are valid. *)
Theorem passwordsMatch_iff_values_equal
    (EMAIL_REGEXP_test : string -> bool)
    (fullName email password confirmPassword : Value)
    (hidePassword hideConfirmPassword : bool) :
  RegisterComponent.passwordsMatch
    (RegisterComponent.mk
       (typed EMAIL_REGEXP_test fullName email password confirmPassword)
       hidePassword hideConfirmPassword) = true
  <-> password = confirmPassword.
Proof.
  unfold RegisterComponent.passwordsMatch, hasError, errors.
  cbn [RegisterComponent.registerForm].
  change (group_validators
            (typed EMAIL_REGEXP_test fullName email password confirmPassword))
    with [RegisterComponent.passwordMatchValidator].
  cbn [omap list_omap]. rewrite passwordMatchValidator_typed.
  rewrite <- strict_eq_true_iff.
  by destruct (strict_eq password confirmPassword).
Qed.

(** The login form is valid exactly when the e-mail is present and
    accepted by the e-mail pattern and the password has at least 6
    characters; the value of [rememberMe] plays no part. Both login
    components build the same form. *)
Theorem login_form_valid_iff (EMAIL_REGEXP_test : string -> bool)
    (email password : option string) (rememberMe : Value) :
  SignalLoginComponent.initializeForm EMAIL_REGEXP_test =
    LoginComponent.initializeForm EMAIL_REGEXP_test /\
  (invalid (typed_login EMAIL_REGEXP_test (text_value email)
              (text_value password) rememberMe) = false
   <->
   (exists s, email = Some s /\ s <> "" /\ EMAIL_REGEXP_test s = true) /\
   (exists s, password = Some s /\ 6 <= String.length s)).
Proof.
  split; [reflexivity|].
  unfold invalid.
  change (group_validators
            (typed_login EMAIL_REGEXP_test (text_value email)
               (text_value password) rememberMe))
    with (@nil (gmap string FormControl -> option (gmap string bool))).
  change (controls
            (typed_login EMAIL_REGEXP_test (text_value email)
               (text_value password) rememberMe))
    with (list_to_map (M := gmap string FormControl)
            [ ("email", mkControl (text_value email) false
                          [required; Forms.email EMAIL_REGEXP_test]);
              ("password", mkControl (text_value password) false
                             [required; minLength 6]);
              ("rememberMe", mkControl rememberMe false []) ]).
  cbn [existsb orb]. rewrite negb_false_iff, bool_decide_eq_true.
  cbn [list_to_map foldr uncurry fst snd].
  rewrite !map_Forall_insert by done.
  rewrite required_email_valid, required_minLength_valid by lia.
  split.
  - by intros (He & Hp & _).
  - intros [He Hp]. by repeat split.
Qed.

(** ** The components that read the signals *)

(** On a valid form the two components that read the signals call the
    service once with the values of the form (registration without a
    role, so the request carries the role [MEMBER]) and do not change
    themselves; every signal and the request log are as the service
    left them, and the only navigation is the one of the effect: to
    '/dashboard', exactly when the user was not authenticated before the
    submit and is authenticated after it. *)
Theorem signal_components_valid_submit (supabase : Backend)
    (login : SignalLoginComponent.t) (register : RegisterComponent.t)
    (w : World) :
  (invalid (SignalLoginComponent.loginForm login) = false ->
   let credentials :=
     SignInRequest.mk (text (SignalLoginComponent.loginForm login) "email")
                      (text (SignalLoginComponent.loginForm login) "password")
   in
   let w1 := after (AuthService.signIn supabase credentials) w in
   let w' := after (SignalLoginComponent.onSubmit supabase login) w in
   result (SignalLoginComponent.onSubmit supabase login) w = login /\
   profileSignal w' = profileSignal w1 /\
   loadingSignal w' = loadingSignal w1 /\
   errorSignal w' = errorSignal w1 /\
   requests w' = requests w1 /\
   navigations w' =
     navigations w ++
       (if negb (AuthService.isAuthenticated w)
           && AuthService.isAuthenticated w1
        then [["/dashboard"]] else [])) /\
  (invalid (RegisterComponent.registerForm register) = false ->
   let signUpData :=
     SignUpRequest.mk
       (text (RegisterComponent.registerForm register) "email")
       (text (RegisterComponent.registerForm register) "password")
       (text (RegisterComponent.registerForm register) "fullName")
       None in
   let up :=
     AuthSignUp (text (RegisterComponent.registerForm register) "email")
                (text (RegisterComponent.registerForm register) "password")
                (text (RegisterComponent.registerForm register) "fullName")
                MEMBER in
   let w1 := after (AuthService.signUp supabase signUpData) w in
   let w' := after (RegisterComponent.onSubmit supabase register) w in
   result (RegisterComponent.onSubmit supabase register) w = register /\
   profileSignal w' = profileSignal w1 /\
   loadingSignal w' = loadingSignal w1 /\
   errorSignal w' = errorSignal w1 /\
   requests w' =
     requests w ++
       up :: fetch_after_auth (signUp_reply supabase (requests w ++ [up])) /\
   navigations w' =
     navigations w ++
       (if negb (AuthService.isAuthenticated w)
           && AuthService.isAuthenticated w1
        then [["/dashboard"]] else [])).
Proof.
  split; intros Hvalid.
  - unfold SignalLoginComponent.onSubmit, SignalLoginComponent.effect,
      AuthService.clearError, AuthService.isAuthenticated.
    rewrite Hvalid. run_auth. unfold navigate. simpl.
    destruct (signInWithPassword_reply supabase _)
      as [[[user|] [e|]]|[|message]];
      simpl;
      try destruct (select_single_reply supabase _) as [[[row|] [e'|]]|reason];
      simpl; destruct (profileSignal w); simpl;
      by rewrite ?app_nil_r.
  - unfold RegisterComponent.onSubmit, RegisterComponent.effect,
      AuthService.clearError, AuthService.isAuthenticated.
    rewrite Hvalid. run_auth. unfold navigate. simpl.
    destruct (signUp_reply supabase _) as [[[user|] [e|]]|[|message]];
      simpl;
      try destruct (select_single_reply supabase _) as [[[row|] [e'|]]|reason];
      simpl; destruct (profileSignal w); simpl;
      rewrite ?app_nil_r, <- ?app_assoc; by repeat split.
Qed.

(** Both filled-in forms submitted to a backend that accepts. *)
Lemma signal_components_valid_submit_witness :
  result (SignalLoginComponent.onSubmit Samples.accepting
            Samples.signal_login_filled) Samples.fresh =
    Samples.signal_login_filled /\
  navigations (after (RegisterComponent.onSubmit Samples.accepting
                        Samples.signal_register_filled) Samples.fresh) =
    [["/dashboard"]].
Proof.
  split.
  - apply (proj1 (signal_components_valid_submit Samples.accepting
                    Samples.signal_login_filled Samples.signal_register_filled
                    Samples.fresh) eq_refl).
  - apply (proj2 (signal_components_valid_submit Samples.accepting
                    Samples.signal_login_filled Samples.signal_register_filled
                    Samples.fresh) eq_refl).
Defined.

(** ** Request types and entities *)

(** No create or update request declares a field that its entity does
    not have, and none declares the key, the author or a timestamp of
    the entity. The create requests and the update requests of boards
    and comments give every field the type of the entity, up to
    optionality. Every field of the update requests of tasks, columns
    and boards is optional, while the one of comments requires
    [content]. *)
Theorem requests_stay_within_entities :
  Forall (fun '(entity, request) =>
            Interfaces.unknown_fields entity request = [])
         Interfaces.request_types /\
  Forall (fun '(_, request) =>
            Forall (fun n => Interfaces.typeOf request n = None)
                   Interfaces.server_managed)
         Interfaces.request_types /\
  Interfaces.mismatches Interfaces.Task Interfaces.CreateTaskRequest = [] /\
  Interfaces.mismatches Interfaces.Column Interfaces.CreateColumnRequest = [] /\
  Interfaces.mismatches Interfaces.Board Interfaces.CreateBoardRequest = [] /\
  Interfaces.mismatches Interfaces.Board Interfaces.UpdateBoardRequest = [] /\
  Interfaces.mismatches Interfaces.Comment Interfaces.CreateCommentRequest
    = [] /\
  Interfaces.mismatches Interfaces.Comment Interfaces.UpdateCommentRequest
    = [] /\
  Interfaces.required_fields Interfaces.UpdateTaskRequest = [] /\
  Interfaces.required_fields Interfaces.UpdateColumnRequest = [] /\
  Interfaces.required_fields Interfaces.UpdateBoardRequest = [] /\
  Interfaces.required_fields Interfaces.UpdateCommentRequest = ["content"].
Proof.
  split; [by repeat constructor|].
  split; [by repeat constructor|].
  by repeat split.
Qed.

(** ** The two services on the profile *)

(** Started with the same request log and the same profile, the two
    versions of the service handle an emission of [currentUser$] and an
    [updateProfile] alike: the same requests, the same profile
    afterwards and, for [updateProfile], the same emitted value. The
    subject-based [updateProfile] never touches its loading state. *)
Theorem services_keep_the_same_profile (supabase : Backend)
    (w : World) (st : SubjectAuthService.State)
    (user : option User.t) (updates : PartialProfile.t) :
  requests w = SubjectAuthService.sent st ->
  profileSignal w =
    SubjectAuthService.profileSubject (SubjectAuthService.service st) ->
  (let w' := after (AuthService.onCurrentUser supabase user) w in
   let st' := SubjectAuthService.final
                (SubjectAuthService.onCurrentUser supabase user) st in
   requests w' = SubjectAuthService.sent st' /\
   profileSignal w' =
     SubjectAuthService.profileSubject (SubjectAuthService.service st')) /\
  (let w' := after (AuthService.updateProfile supabase updates) w in
   let st' := SubjectAuthService.final
                (SubjectAuthService.updateProfile supabase updates) st in
   result (AuthService.updateProfile supabase updates) w =
     SubjectAuthService.outcome
       (SubjectAuthService.updateProfile supabase updates) st /\
   requests w' = SubjectAuthService.sent st' /\
   profileSignal w' =
     SubjectAuthService.profileSubject (SubjectAuthService.service st') /\
   SubjectAuthService.loadingSubject (SubjectAuthService.service st') =
     SubjectAuthService.loadingSubject (SubjectAuthService.service st)).
Proof.
  intros Hlog Hprofile. split.
  - unfold AuthService.onCurrentUser, SubjectAuthService.onCurrentUser.
    destruct user as [user|]; run_service; run_subject; [|done].
    rewrite <- Hlog.
    by destruct (select_single_reply supabase _) as [[row [e|]]|reason].
  - run_service. unfold SubjectAuthService.updateProfile.
    run_subject. unfold SubjectAuthService.currentProfile.
    rewrite <- Hprofile.
    destruct (profileSignal w) as [profile|] eqn:Hcached; simpl;
      [|by rewrite ?Hcached].
    destruct (Profile.id profile) as [|c userId]; simpl;
      [by rewrite ?Hcached|].
    rewrite <- Hlog.
    destruct (update_reply supabase _) as [[[e|]]|reason]; simpl;
      try by rewrite ?Hcached.
    by destruct (select_single_reply supabase _) as [[row [e'|]]|reason].
Qed.

(** Both versions handling the user of a restored session. *)
Lemma services_keep_the_same_profile_witness :
  profileSignal
    (after (AuthService.onCurrentUser Samples.accepting
              (Some (User.mk "u1"))) Samples.fresh) =
  SubjectAuthService.profileSubject
    (SubjectAuthService.service
       (SubjectAuthService.final
          (SubjectAuthService.onCurrentUser Samples.accepting
             (Some (User.mk "u1")))
          Samples.fresh_subject)).
Proof.
  apply (proj1 (services_keep_the_same_profile Samples.accepting
                  Samples.fresh Samples.fresh_subject
                  (Some (User.mk "u1"))
                  (PartialProfile.mk None None None None None None None)
                  eq_refl eq_refl)).
Defined.

(** ** The event loop *)

Ltac run_loop :=
  unfold EventLoop.run, EventLoop.step, EventLoop.resume,
    EventLoop.advance, EventLoop.suspend, EventLoop.deliver,
    EventLoop.idle, EventLoop.onCurrentUser_begin,
    EventLoop.signUp_begin, EventLoop.signIn_begin,
    EventLoop.signOut_begin, EventLoop.updateProfile_begin,
    EventLoop.auth_resume, EventLoop.update_resume,
    EventLoop.profile_resume, EventLoop.signOut_resume,
    EventLoop.fetchProfile_begin, EventLoop.fetchProfile_resume,
    AuthService.catchAuthError, AuthService.emit,
    bind, ret, send, navigate, profileSignal_get, profileSignal_set,
    loadingSignal_set, errorSignal_set; simpl.

Section EventLoopFacts.

Variable supabase : Backend.

Lemma step_requests (e : EventLoop.Event) (s : EventLoop.t) :
  requests (EventLoop.world (EventLoop.step supabase e s)) =
  requests (EventLoop.world s) ++ sent_at e s.
Proof.
  destruct e as [[session|]|request|request| |updates|i]; run_loop;
    try by rewrite ?app_nil_r.
  - unfold after. simpl.
    destruct (profileSignal (EventLoop.world s)) as [profile|]; simpl;
      [|by rewrite app_nil_r].
    destruct (Profile.id profile) as [|c userId]; simpl;
      by rewrite ?app_nil_r.
  - destruct (EventLoop.pending s !! i)
      as [[shown returned reply|reply|userId reply|caller reply]|];
      simpl; [| | | |by rewrite app_nil_r].
    + destruct reply as [[[user|] [e|]]|[|message]]; simpl;
        by rewrite ?app_nil_r.
    + unfold after. simpl.
      destruct reply as [[[e|]]|reason]; simpl; by rewrite app_nil_r.
    + destruct reply as [[[e|]]|reason]; simpl; by rewrite ?app_nil_r.
    + destruct caller, reply as [[row [e|]]|reason]; simpl;
        by rewrite app_nil_r.
Qed.

Lemma sent_at_length (e : EventLoop.Event) (s : EventLoop.t) :
  length (sent_at e s) <= 1.
Proof.
  destruct e as [[session|]|request|request| |updates|i]; simpl; try lia.
  - destruct (Profile.id <$> profileSignal (EventLoop.world s))
      as [[|c userId]|]; simpl; lia.
  - destruct (EventLoop.pending s !! i)
      as [[shown returned reply|reply|userId reply|caller reply]|];
      simpl; try lia.
    + apply fetch_after_auth_length.
    + apply fetch_after_update_length.
Qed.

Lemma may_send_one (p : EventLoop.Pending) :
  may_send [p] =
  match p with
  | EventLoop.AwaitAuth _ _ _ | EventLoop.AwaitUpdate _ _ => 1
  | _ => 0
  end.
Proof. by destruct p. Qed.

Lemma may_send_cons (p : EventLoop.Pending) (l : list EventLoop.Pending) :
  may_send (p :: l) = may_send [p] + may_send l.
Proof. unfold may_send. simpl. by destruct p. Qed.

Lemma may_send_snoc (l : list EventLoop.Pending) (p : EventLoop.Pending) :
  may_send (l ++ [p]) = may_send l + may_send [p].
Proof. unfold may_send. by rewrite List.filter_app, length_app. Qed.

Lemma may_send_delete (l : list EventLoop.Pending) (i : nat)
    (p : EventLoop.Pending) :
  l !! i = Some p -> may_send l = may_send [p] + may_send (delete i l).
Proof.
  revert i. induction l as [|q l IH]; intros [|i] Hi; try done.
  - injection Hi as ->. apply may_send_cons.
  - simpl in Hi. apply IH in Hi.
    change (delete (S i) (q :: l)) with (q :: delete i l).
    rewrite (may_send_cons q l), (may_send_cons q (delete i l)). lia.
Qed.

Lemma step_budget (e : EventLoop.Event) (s : EventLoop.t) :
  length (requests (EventLoop.world (EventLoop.step supabase e s))) +
  may_send (EventLoop.pending (EventLoop.step supabase e s)) <=
  length (requests (EventLoop.world s)) + may_send (EventLoop.pending s) +
  (calls [e] + calls [e] + user_sessions [e]).
Proof.
  rewrite step_requests, length_app.
  destruct e as [[session|]|request|request| |updates|i]; run_loop;
    rewrite ?may_send_snoc, ?may_send_one; unfold calls, user_sessions;
    simpl; try lia.
  - destruct (profileSignal (EventLoop.world s)) as [profile|]; simpl;
      [|lia].
    destruct (Profile.id profile) as [|c userId]; simpl;
      rewrite ?may_send_snoc, ?may_send_one; simpl; lia.
  - destruct (EventLoop.pending s !! i)
      as [[shown returned reply|reply|userId reply|caller reply]|] eqn:Hi;
      simpl; [| | | |lia];
      apply may_send_delete in Hi; rewrite Hi, may_send_one.
    + destruct reply as [[[user|] [e|]]|[|message]]; simpl;
        rewrite ?may_send_snoc, ?may_send_one; simpl; lia.
    + simpl. lia.
    + destruct reply as [[[e|]]|reason]; simpl;
        rewrite ?may_send_snoc, ?may_send_one; simpl; lia.
    + destruct caller, reply as [[row [e|]]|reason]; simpl; lia.
Qed.

Lemma calls_cons (e : EventLoop.Event) (events : list EventLoop.Event) :
  calls (e :: events) = calls [e] + calls events.
Proof. unfold calls. simpl. by destruct e. Qed.

Lemma user_sessions_cons (e : EventLoop.Event)
    (events : list EventLoop.Event) :
  user_sessions (e :: events) = user_sessions [e] + user_sessions events.
Proof. unfold user_sessions. simpl. by destruct e as [[?|]| | | | |]. Qed.

Lemma run_budget (events : list EventLoop.Event) (s : EventLoop.t) :
  length (requests (EventLoop.world (EventLoop.run supabase events s))) +
  may_send (EventLoop.pending (EventLoop.run supabase events s)) <=
  length (requests (EventLoop.world s)) + may_send (EventLoop.pending s) +
  (2 * calls events + user_sessions events).
Proof.
  revert s. induction events as [|e events IH]; intros s.
  - unfold calls, user_sessions. simpl. lia.
  - change (EventLoop.run supabase (e :: events) s)
      with (EventLoop.run supabase events (EventLoop.step supabase e s)).
    specialize (IH (EventLoop.step supabase e s)).
    pose proof (step_budget e s).
    rewrite (calls_cons e events), (user_sessions_cons e events). lia.
Qed.

End EventLoopFacts.

(** A sign-in that the backend accepts and the SDK reports as a session
    change sends three requests: the credentials, the profile query of
    the subscriber of [currentUser$] and the one of [signIn] itself. *)
Lemma reported_signIn_sends_three_requests :
  let s := EventLoop.run Samples.accepting
             [ EventLoop.CallSignIn Samples.credentials;
               EventLoop.SessionChange (Some (Session.mk (User.mk "u1")));
               EventLoop.Arrives 0; EventLoop.Arrives 0;
               EventLoop.Arrives 0 ]
             (EventLoop.idle SupabaseService.create Samples.fresh) in
  requests (EventLoop.world s) =
    [ AuthSignInWithPassword "alice@example.com" "secret1";
      ProfilesSelectSingle "u1";
      ProfilesSelectSingle "u1" ] /\
  EventLoop.pending s = [].
Proof. by split. Qed.

(** C1, amended. A public operation of [AuthService] is not a single
    backend request. In every interleaving of calls, session changes
    and arriving replies, each turn of the event loop sends at most one
    request: a call of [signUp], [signIn] or [signOut] sends one, a call
    of [updateProfile] sends the update (nothing when no profile id is
    cached); the arrival of the reply to [signUp] or [signIn] sends the
    profile query exactly when the reply has no error and carries a
    user, the arrival of the reply to the update sends it exactly when
    the reply has no error, and no other arrival sends anything; every
    session change that carries a user makes the subscriber of
    [currentUser$] send one profile query. So the code of an operation
    sends at most two requests, and a run sends at most two requests
    for each call and one for each session change with a user. *)
Theorem requests_on_the_event_loop (supabase : Backend)
    (s : EventLoop.t) (e : EventLoop.Event)
    (events : list EventLoop.Event) :
  requests (EventLoop.world (EventLoop.step supabase e s)) =
    requests (EventLoop.world s) ++ sent_at e s /\
  length (sent_at e s) <= 1 /\
  length (requests (EventLoop.world (EventLoop.run supabase events s))) +
  may_send (EventLoop.pending (EventLoop.run supabase events s)) <=
    length (requests (EventLoop.world s)) + may_send (EventLoop.pending s) +
    (2 * calls events + user_sessions events).
Proof.
  split; [apply step_requests|].
  split; [apply sent_at_length|apply run_budget].
Qed.

(** A method whose replies arrive at once, with nothing in between, is
    the method run alone: the event loop then leaves the world of the
    action of that method, no suspended method, and has delivered the
    result of the action. The same holds for the subscriber of
    [currentUser$] on one session change. *)
Theorem uninterrupted_runs_are_the_methods (supabase : Backend)
    (service : SupabaseService.t) (w : World)
    (registration : SignUpRequest.t) (credentials : SignInRequest.t)
    (updates : PartialProfile.t) (session : option Session.t) :
  EventLoop.run supabase
    [EventLoop.CallSignUp registration; EventLoop.Arrives 0;
     EventLoop.Arrives 0]
    (EventLoop.idle service w) =
    EventLoop.mk service (after (AuthService.signUp supabase registration) w)
      []
      [EventLoop.ToAuthSubscriber
         (result (AuthService.signUp supabase registration) w)] /\
  EventLoop.run supabase
    [EventLoop.CallSignIn credentials; EventLoop.Arrives 0;
     EventLoop.Arrives 0]
    (EventLoop.idle service w) =
    EventLoop.mk service (after (AuthService.signIn supabase credentials) w)
      []
      [EventLoop.ToAuthSubscriber
         (result (AuthService.signIn supabase credentials) w)] /\
  EventLoop.run supabase [EventLoop.CallSignOut; EventLoop.Arrives 0]
    (EventLoop.idle service w) =
    EventLoop.mk service (after (AuthService.signOut supabase) w) [] [] /\
  EventLoop.run supabase
    [EventLoop.CallUpdateProfile updates; EventLoop.Arrives 0;
     EventLoop.Arrives 0]
    (EventLoop.idle service w) =
    EventLoop.mk service
      (after (AuthService.updateProfile supabase updates) w) []
      [EventLoop.ToUpdateSubscriber
         (result (AuthService.updateProfile supabase updates) w)] /\
  EventLoop.run supabase
    [EventLoop.SessionChange session; EventLoop.Arrives 0]
    (EventLoop.idle service w) =
    EventLoop.mk (SupabaseService.onSession session service)
      (after (AuthService.onCurrentUser supabase
                (SupabaseService.currentUser_of session)) w)
      [] [].
Proof.
  split; [|split; [|split; [|split]]].
  - run_auth. run_loop.
    destruct (signUp_reply supabase _) as [[[user|] [e|]]|[|message]];
      simpl; try reflexivity.
    destruct (select_single_reply supabase _) as [[row [e'|]]|reason];
      reflexivity.
  - run_auth. run_loop.
    destruct (signInWithPassword_reply supabase _)
      as [[[user|] [e|]]|[|message]];
      simpl; try reflexivity.
    destruct (select_single_reply supabase _) as [[row [e'|]]|reason];
      reflexivity.
  - run_service. run_loop. unfold after. simpl.
    destruct (signOut_reply supabase _) as [[[e|]]|reason]; reflexivity.
  - run_service. run_loop.
    destruct (profileSignal w) as [profile|]; simpl; [|reflexivity].
    destruct (Profile.id profile) as [|c userId]; simpl; [reflexivity|].
    destruct (update_reply supabase _) as [[[e|]]|reason]; simpl;
      try reflexivity.
    destruct (select_single_reply supabase _) as [[row [e'|]]|reason];
      reflexivity.
  - unfold AuthService.onCurrentUser. run_service. run_loop.
    destruct session as [[user]|]; simpl; [|reflexivity].
    destruct (select_single_reply supabase _) as [[row [e'|]]|reason];
      reflexivity.
Qed.

(** ** The two views of the session *)

Section SessionFacts.

Lemma initAuthListener_last (initial : option Session.t)
    (changes : list (option Session.t)) (s : SupabaseService.t) :
  SupabaseService.initAuthListener initial changes s =
  SupabaseService.mk
    (SupabaseService.currentUser_of (List.last (initial :: changes) None)).
Proof.
  unfold SupabaseService.initAuthListener.
  rewrite (app_removelast_last (l := initial :: changes) None) at 1
    by done.
  by rewrite foldl_app.
Qed.

(** A session change with a user suspends the subscriber at its profile
    query. *)
Lemma step_session_user (supabase : Backend) (session : Session.t)
    (s : EventLoop.t) :
  let query := ProfilesSelectSingle (User.id (Session.user session)) in
  EventLoop.step supabase (EventLoop.SessionChange (Some session)) s =
  EventLoop.mk
    (SupabaseService.onSession (Some session) (EventLoop.service s))
    (after (send query) (EventLoop.world s))
    (EventLoop.pending s ++
       [EventLoop.AwaitProfile EventLoop.BySubscriber
          (select_single_reply supabase
             (requests (EventLoop.world s) ++ [query]))])
    (EventLoop.delivered s).
Proof. reflexivity. Qed.

End SessionFacts.

(** [SupabaseService] always holds the user of the last session it was
    told of, but the profile cache of [AuthService] can outlive the
    session: when a session with a user is followed by a session
    without one while the profile query of the first is still pending,
    and that query then brings a row, the service ends with the profile
    cached and [isAuthenticated] true while
    [SupabaseService.isAuthenticated()] is false. *)
Theorem profile_cache_can_outlive_the_session (supabase : Backend)
    (service : SupabaseService.t) (w : World)
    (initial : option Session.t) (changes : list (option Session.t))
    (user : User.t) (row : Profile.t) :
  SupabaseService.currentUser
    (SupabaseService.initAuthListener initial changes service) =
    SupabaseService.currentUser_of (List.last (initial :: changes) None) /\
  (select_single_reply supabase
     (requests w ++ [ProfilesSelectSingle (User.id user)]) =
     Fulfilled (SingleReply.mk (Some row) None) ->
   let s' := EventLoop.run supabase
               [ EventLoop.SessionChange (Some (Session.mk user));
                 EventLoop.SessionChange None;
                 EventLoop.Arrives 0 ]
               (EventLoop.idle service w) in
   EventLoop.pending s' = [] /\
   profileSignal (EventLoop.world s') = Some row /\
   AuthService.isAuthenticated (EventLoop.world s') = true /\
   SupabaseService.isAuthenticated (EventLoop.service s') = false).
Proof.
  split; [by rewrite initAuthListener_last|].
  intros Hrow. unfold EventLoop.run. cbn [foldl].
  rewrite step_session_user. cbv zeta.
  cbn [Session.user EventLoop.idle EventLoop.world EventLoop.pending
         EventLoop.service EventLoop.delivered].
  rewrite Hrow. repeat split.
Qed.

(** A session of [alice] that ends while her profile is being
    queried. *)
Lemma profile_cache_can_outlive_the_session_witness :
  AuthService.isAuthenticated
    (EventLoop.world
       (EventLoop.run Samples.accepting
          [ EventLoop.SessionChange (Some (Session.mk (User.mk "u1")));
            EventLoop.SessionChange None;
            EventLoop.Arrives 0 ]
          (EventLoop.idle SupabaseService.create Samples.fresh))) = true /\
  SupabaseService.isAuthenticated
    (EventLoop.service
       (EventLoop.run Samples.accepting
          [ EventLoop.SessionChange (Some (Session.mk (User.mk "u1")));
            EventLoop.SessionChange None;
            EventLoop.Arrives 0 ]
          (EventLoop.idle SupabaseService.create Samples.fresh))) = false.
Proof.
  pose proof (proj2 (profile_cache_can_outlive_the_session Samples.accepting
                       SupabaseService.create Samples.fresh None []
                       (User.mk "u1") Samples.alice)
                eq_refl) as (_ & _ & Hauth & Hsession).
  by split.
Defined.
